(** * redux-tooltip, [src/utils.js]: placement and fallback of a tooltip

    A shallow embedding of the functions of [utils.js] ([position],
    [placement], [opposite], [intersection], [defaultArea], [strip],
    [amend], [overDirs], [adjust], [resolve]) together with the part of the
    JavaScript run time they rely on, followed by the properties of the
    design document.

    Conventions of the embedding:
    - a JavaScript number is an IEEE 754 binary64 value, [spec_float] with
      precision 53 and maximal exponent 1024; arithmetic is the correctly
      rounded arithmetic of [SpecFloat];
    - a JavaScript string is a [string] whose characters are code units
      below 256;
    - a plain object is a finite map from property names to values, a
      missing property reads as [VUndef];
    - the array bound to [place] is the only object [adjust] mutates that
      its caller can still reach, so it lives in a store of arrays;
      every other object is built and returned, and is a value;
    - an exception is an explicit outcome [Throw]; every operator that
      converts its operands ([+], [-], [*], [<], [Math.max], [Math.min],
      a template literal) returns an outcome, since the conversion of an
      object can throw. *)

From Stdlib Require Import ZArith String Ascii List Bool Lia.
From Stdlib Require Import Floats.SpecFloat.
From stdpp Require Import gmap strings list pretty.

Set Warnings "-register-all".
Local Open Scope Z_scope.

(** ** Numbers *)

Module Num.

Definition number : Type := spec_float.

Definition prec : Z := 53.
Definition emax : Z := 1024.

Definition nan : number := S754_nan.
Definition zero : number := S754_zero false.

Definition add : number -> number -> number := SFadd prec emax.
Definition sub : number -> number -> number := SFsub prec emax.
Definition mul : number -> number -> number := SFmul prec emax.
Definition div : number -> number -> number := SFdiv prec emax.

(** The number of an integer ([long] attributes of the DOM, literals). *)
Definition of_Z (z : Z) : number := binary_normalize prec emax z 0 false.

(** The literal [0.5]. *)
Definition half : number := Eval vm_compute in div (of_Z 1) (of_Z 2).

Definition is_nan (x : number) : bool :=
  match x with S754_nan => true | _ => false end.

(** [x < y] on numbers: false as soon as one side is NaN. *)
Definition ltb : number -> number -> bool := SFltb.

(** Truthiness of a number: [0], [-0] and NaN are falsy. *)
Definition truthy (x : number) : bool :=
  match x with S754_zero _ | S754_nan => false | _ => true end.

(** [Math.max] and [Math.min] on two numbers (ECMAScript 21.3.2.24-25):
    NaN if one is NaN, [+0] above [-0]. *)
Definition max (x y : number) : number :=
  if is_nan x || is_nan y then nan
  else match x, y with
       | S754_zero true, S754_zero false => y
       | _, _ => if ltb x y then y else x
       end.

Definition min (x y : number) : number :=
  if is_nan x || is_nan y then nan
  else match x, y with
       | S754_zero false, S754_zero true => y
       | _, _ => if ltb y x then y else x
       end.

#[global] Instance number_eq_dec : EqDecision spec_float.
Proof. solve_decision. Defined.

(** *** Decimal literals

    [of_decimal neg m p] is the number nearest to [m * 10^p] (ties to
    even), with the sign [neg]; this is the rounding of a numeric string
    (ECMAScript 7.1.4.1.1, [StringNumericValue]) done exactly. *)
Definition of_decimal (neg : bool) (m p : Z) : number :=
  match m with
  | Zpos q =>
      if 0 <=? p then binary_round prec emax neg (q * Z.to_pos (10 ^ p))%positive 0
      else div (S754_finite neg q 0) (S754_finite false (Z.to_pos (10 ^ (- p))) 0)
  | _ => S754_zero neg
  end.

(** *** [Number::toString] (ECMAScript 6.1.6.1.20, radix 10)

    For a finite positive [x = m * 2^e] the digits are those of the
    least [k] and of the [s] with [k] digits such that [s * 10^(n-k)]
    rounds to [x]; among two such [s] the one nearer to [x], the even one
    on a tie. *)

(** Number of decimal digits of a positive integer. *)
Definition ndigits (z : Z) : Z := Z.of_nat (String.length (pretty (Z.to_N z))).

(** [x = a / b] scaled by [10^(-p)]: numerator and denominator of
    [x / 10^p]. *)
Definition scaled (m : positive) (e p : Z) : Z * Z :=
  let a := if 0 <=? e then Zpos m * 2 ^ e else Zpos m in
  let b := if 0 <=? e then 1 else 2 ^ (- e) in
  if 0 <=? p then (a, b * 10 ^ p) else (a * 10 ^ (- p), b).

(** The [n] with [10^(n-1) <= x < 10^n]. *)
Definition decimal_exponent (m : positive) (e : Z) : Z :=
  let '(a, b) := scaled m e 0 in
  let n0 := ndigits a - ndigits b in
  let '(a1, b1) := scaled m e n0 in
  if a1 <? b1 then n0 else n0 + 1.

(** The candidate with [k] digits, if one rounds to [x]. *)
Definition digits_at (m : positive) (e n k : Z) : option (Z * Z) :=
  let x := S754_finite false m e in
  let p := n - k in
  let '(a, b) := scaled m e p in
  let lo := a / b in
  let r := a mod b in
  let hi := lo + 1 in
  let oklo := bool_decide (of_decimal false lo p = x) in
  let okhi := bool_decide (of_decimal false hi p = x) in
  let prefer_lo :=
    match Z.compare (2 * r) b with
    | Lt => true | Gt => false | Eq => Z.even lo
    end in
  match oklo, okhi with
  | true, true => Some (if prefer_lo then lo else hi, p)
  | true, false => Some (lo, p)
  | false, true => Some (hi, p)
  | false, false => None
  end.

Fixpoint shortest (m : positive) (e n : Z) (k : Z) (fuel : nat) : Z * Z :=
  match digits_at m e n k with
  | Some sp => sp
  | None =>
      match fuel with
      | O => let '(a, b) := scaled m e (n - k) in (a / b, n - k)
      | S fuel' => shortest m e n (k + 1) fuel'
      end
  end.

(** Drop the zeros at the end of [s] (only [s = 10], from the upper
    candidate at [k = 1], has some). *)
Fixpoint strip_zeros (fuel : nat) (s p : Z) : Z * Z :=
  match fuel with
  | O => (s, p)
  | S fuel' => if (s mod 10 =? 0) && (0 <? s) then strip_zeros fuel' (s / 10) (p + 1) else (s, p)
  end.

Definition zeros (n : Z) : string :=
  fold_right String.append EmptyString (repeat "0"%string (Z.to_nat n)).

Definition str_take (n : Z) (s : string) : string := String.substring 0 (Z.to_nat n) s.
Definition str_drop (n : Z) (s : string) : string :=
  String.substring (Z.to_nat n) (String.length s - Z.to_nat n) s.

Definition format_digits (digits : string) (n : Z) : string :=
  let k := Z.of_nat (String.length digits) in
  if (k <=? n) && (n <=? 21) then digits +:+ zeros (n - k)
  else if (0 <? n) && (n <=? 21) then str_take n digits +:+ "." +:+ str_drop n digits
  else if (-6 <? n) && (n <=? 0) then "0." +:+ zeros (- n) +:+ digits
  else
    let ex := (if 0 <? n - 1 then "+" else "-") +:+ pretty (Z.abs_N (n - 1)) in
    if k =? 1 then digits +:+ "e" +:+ ex
    else str_take 1 digits +:+ "." +:+ str_drop 1 digits +:+ "e" +:+ ex.

Definition to_string_pos (m : positive) (e : Z) : string :=
  let n := decimal_exponent m e in
  let '(s, p) := shortest m e n 1 16 in
  let '(s', p') := strip_zeros 30 s p in
  let digits := pretty (Z.to_N s') in
  format_digits digits (p' + Z.of_nat (String.length digits)).

Definition to_string (x : number) : string :=
  match x with
  | S754_nan => "NaN"
  | S754_zero _ => "0"
  | S754_infinity s => if s then "-Infinity" else "Infinity"
  | S754_finite s m e => (if s then "-" else EmptyString) +:+ to_string_pos m e
  end.

End Num.

Abbreviation number := Num.number.

(** ** Strings *)

Module Str.

(** White space and line terminators ([StrWhiteSpaceChar]) among the code
    units below 256: TAB, LF, VT, FF, CR, SP and NBSP. *)
Definition is_white_space (c : ascii) : bool :=
  match c with
  | "009" | "010" | "011" | "012" | "013" | " " | "160" => true
  | _ => false
  end%char.

Fixpoint trim_start (s : string) : string :=
  match s with
  | String c s' => if is_white_space c then trim_start s' else s
  | EmptyString => EmptyString
  end.

(** [String.prototype.trim]. *)
Definition trim (s : string) : string :=
  String.rev (trim_start (String.rev (trim_start s))).

(** [String.prototype.split] with a separator of one character. *)
Fixpoint split (sep : ascii) (s : string) : list string :=
  match s with
  | EmptyString => [EmptyString]
  | String c s' =>
      if Ascii.eqb c sep then EmptyString :: split sep s'
      else match split sep s' with
           | h :: t => String c h :: t
           | [] => [String c EmptyString]
           end
  end.

Fixpoint drop (n : nat) (s : string) : string :=
  match n, s with
  | S n', String _ s' => drop n' s'
  | _, _ => s
  end.

(** [String.prototype.replace] with a string pattern: the first
    occurrence only. *)
Fixpoint replace (pat rep s : string) : string :=
  if String.prefix pat s then rep +:+ drop (String.length pat) s
  else match s with
       | String c s' => String c (replace pat rep s')
       | EmptyString => EmptyString
       end.

(** Code-unit order on strings, for [<] on two strings. *)
Definition ltb (s t : string) : bool :=
  match String.compare s t with Lt => true | _ => false end.

(** The characters of a string, one string each (spread of a string). *)
Fixpoint chars (s : string) : list string :=
  match s with
  | String c s' => String c EmptyString :: chars s'
  | EmptyString => []
  end.

(** *** Numeric strings *)

(** The longest run of decimal digits at the head of [s]: its value on
    top of [acc], the number of digits read on top of [n], the rest. *)
Fixpoint read_digits (acc : Z) (n : nat) (s : string) : Z * nat * string :=
  match s with
  | String c s' =>
      match Ascii.is_nat c with
      | Some d => read_digits (10 * acc + Z.of_nat d) (S n) s'
      | None => (acc, n, s)
      end
  | EmptyString => (acc, n, s)
  end.

Definition read_sign (s : string) : bool * string :=
  match s with
  | String "-" s' => (true, s')
  | String "+" s' => (false, s')
  | _ => (false, s)
  end.

(** [ExponentPart]: [e] or [E], an optional sign, at least one digit;
    absent (exponent 0, nothing consumed) otherwise. *)
Definition read_exponent (s : string) : Z * string :=
  match s with
  | String c s' =>
      if Ascii.eqb c "e" || Ascii.eqb c "E" then
        let '(neg, s'') := read_sign s' in
        match read_digits 0 0 s'' with
        | (_, O, _) => (0, s)
        | (v, _, rest) => (if neg then - v else v, rest)
        end
      else (0, s)
  | EmptyString => (0, s)
  end.

(** The longest prefix of [s] that is a [StrUnsignedDecimalLiteral]
    other than [Infinity]: mantissa, decimal exponent, rest. *)
Definition read_decimal (s : string) : option (Z * Z * string) :=
  let '(i, ni, r1) := read_digits 0 0 s in
  let after_point : option (Z * nat * string) :=
    match r1 with
    | String "." r =>
        let '(m, nf, r2) := read_digits i 0 r in
        match ni, nf with
        | O, O => None
        | _, _ => Some (m, nf, r2)
        end
    | _ => match ni with O => None | _ => Some (i, O, r1) end
    end in
  match after_point with
  | Some (m, nf, r2) =>
      let '(ex, r3) := read_exponent r2 in
      Some (m, ex - Z.of_nat nf, r3)
  | None => None
  end.

(** [parseFloat] (ECMAScript 19.2.4) of a string. *)
Definition parseFloat (s : string) : number :=
  let '(neg, u) := read_sign (trim_start s) in
  if String.prefix "Infinity" u then S754_infinity neg
  else match read_decimal u with
       | Some (m, p, _) => Num.of_decimal neg m p
       | None => Num.nan
       end.

(** Digits of the radix [b] (2, 8 or 16): the whole string, or nothing. *)
Definition digit_of (b : Z) (c : ascii) : option Z :=
  let n := Z.of_nat (nat_of_ascii c) in
  let d := if (48 <=? n) && (n <=? 57) then n - 48
           else if (97 <=? n) && (n <=? 102) then n - 87
           else if (65 <=? n) && (n <=? 70) then n - 55
           else b in
  if d <? b then Some d else None.

Fixpoint read_radix (b : Z) (acc : Z) (s : string) : option Z :=
  match s with
  | EmptyString => Some acc
  | String c s' =>
      match digit_of b c with
      | Some d => read_radix b (b * acc + d) s'
      | None => None
      end
  end.

Definition radix_literal (b : Z) (s : string) : number :=
  match s with
  | EmptyString => Num.nan
  | _ => match read_radix b 0 s with
         | Some v => Num.of_Z v
         | None => Num.nan
         end
  end.

(** [StringToNumber] (ECMAScript 7.1.4.1.1): the whole trimmed string
    has to be a numeric literal, the empty string is [+0]. *)
Definition to_number (s : string) : number :=
  match trim s with
  | EmptyString => Num.zero
  | String "0" (String "x" r) | String "0" (String "X" r) => radix_literal 16 r
  | String "0" (String "o" r) | String "0" (String "O" r) => radix_literal 8 r
  | String "0" (String "b" r) | String "0" (String "B" r) => radix_literal 2 r
  | t =>
      let '(neg, u) := read_sign t in
      if String.eqb u "Infinity" then S754_infinity neg
      else match read_decimal u with
           | Some (m, p, EmptyString) => Num.of_decimal neg m p
           | _ => Num.nan
           end
  end.

End Str.

(** ** Values, objects and exceptions *)

Inductive value :=
  | VUndef
  | VNull
  | VBool (b : bool)
  | VNum (n : number)
  | VStr (s : string)
  | VArr (a : list value)
  | VObj (o : gmap string value).

(** A plain object: its own properties. *)
Abbreviation object := (gmap string value).

(** [new Error(message)] and the [TypeError] of the run time. *)
Inductive exn :=
  | Error (message : string)
  | TypeError.

Inductive outcome (A : Type) :=
  | Ok (a : A)
  | Throw (e : exn).
Arguments Ok {A} a.
Arguments Throw {A} e.

#[global] Instance outcome_ret : MRet outcome := @Ok.
#[global] Instance outcome_bind : MBind outcome :=
  fun A B f m => match m with Ok a => f a | Throw e => Throw e end.

Module JS.

(** [o.k] on a plain object. *)
Definition get (o : object) (k : string) : value := default VUndef (o !! k).

Definition typeof (v : value) : string :=
  match v with
  | VUndef => "undefined"
  | VNull | VArr _ | VObj _ => "object"
  | VBool _ => "boolean"
  | VNum _ => "number"
  | VStr _ => "string"
  end.

(** [ToBoolean]. *)
Definition truthy (v : value) : bool :=
  match v with
  | VUndef | VNull => false
  | VBool b => b
  | VNum n => Num.truthy n
  | VStr EmptyString => false
  | VStr _ | VArr _ | VObj _ => true
  end.

(** [v === s] for a string literal [s]. *)
Definition str_is (v : value) (s : string) : bool :=
  match v with VStr t => String.eqb t s | _ => false end.

(** [ToString], as a template literal applies it. An array joins its
    elements with commas ([Array.prototype.toString]), [undefined] and
    [null] printing as nothing. A plain object prints through the
    [toString] it inherits, unless it has an own property [toString]: no
    value of the embedding is callable, so [OrdinaryToPrimitive] finds no
    method there, the inherited [valueOf] returns the object itself, and a
    [TypeError] is thrown. *)
Fixpoint to_string (v : value) : outcome string :=
  match v with
  | VUndef => Ok "undefined"
  | VNull => Ok "null"
  | VBool b => Ok (if b then "true" else "false")
  | VNum n => Ok (Num.to_string n)
  | VStr s => Ok s
  | VArr a =>
      (fix join (l : list value) : outcome string :=
         match l with
         | [] => Ok EmptyString
         | x :: l' =>
             match (match x with VUndef | VNull => Ok EmptyString | _ => to_string x end) with
             | Ok sx =>
                 match l' with
                 | [] => Ok sx
                 | _ => match join l' with
                        | Ok r => Ok (sx +:+ "," +:+ r)
                        | Throw e => Throw e
                        end
                 end
             | Throw e => Throw e
             end
         end) a
  | VObj o =>
      match o !! "toString" with
      | Some _ => Throw TypeError
      | None => Ok "[object Object]"
      end
  end.

(** [ToPrimitive]: an array or an object becomes the string it prints as
    (for them [valueOf] returns no primitive value, whatever the hint). *)
Definition to_primitive (v : value) : outcome value :=
  match v with
  | VArr _ | VObj _ => s ← to_string v; Ok (VStr s)
  | _ => Ok v
  end.

(** [ToNumber] of a primitive value, and of any value: an array or an
    object is converted to a primitive value first, so that [number_of]
    never meets one (NaN stands in its last case). *)
Definition number_of (p : value) : number :=
  match p with
  | VUndef => Num.nan
  | VNull => Num.zero
  | VBool b => if b then Num.of_Z 1 else Num.zero
  | VNum n => n
  | VStr s => Str.to_number s
  | VArr _ | VObj _ => Num.nan
  end.

Definition to_number (v : value) : outcome number :=
  p ← to_primitive v; Ok (number_of p).

(** The operators [+], [-], [*], [<] and [Math.max], [Math.min] on two
    values. *)
Definition add (x y : value) : outcome value :=
  p ← to_primitive x;
  q ← to_primitive y;
  match p, q with
  | VStr s, _ => t ← to_string q; Ok (VStr (s +:+ t))
  | _, VStr t => s ← to_string p; Ok (VStr (s +:+ t))
  | _, _ => Ok (VNum (Num.add (number_of p) (number_of q)))
  end.

Definition sub (x y : value) : outcome value :=
  a ← to_number x; b ← to_number y; Ok (VNum (Num.sub a b)).

Definition mul (x y : value) : outcome value :=
  a ← to_number x; b ← to_number y; Ok (VNum (Num.mul a b)).

Definition lt (x y : value) : outcome bool :=
  p ← to_primitive x;
  q ← to_primitive y;
  Ok match p, q with
     | VStr s, VStr t => Str.ltb s t
     | _, _ => Num.ltb (number_of p) (number_of q)
     end.

Definition max (x y : value) : outcome value :=
  a ← to_number x; b ← to_number y; Ok (VNum (Num.max a b)).

Definition min (x y : value) : outcome value :=
  a ← to_number x; b ← to_number y; Ok (VNum (Num.min a b)).

(** The same operators on two expressions, evaluated from left to
    right. *)
Definition plus (x y : outcome value) : outcome value := a ← x; b ← y; add a b.
Definition minus (x y : outcome value) : outcome value := a ← x; b ← y; sub a b.
Definition times (x y : outcome value) : outcome value := a ← x; b ← y; mul a b.

(** The index a property name denotes, if it is the decimal numeral of
    one. *)
Definition index_of (k : string) : option nat :=
  match Str.read_digits 0 0 k with
  | (v, S _, EmptyString) =>
      if String.eqb k "0" || negb (String.prefix "0" k) then Some (Z.to_nat v) else None
  | _ => None
  end.

(** [v.k] for the property names the source reads ([length], [0],
    [payload], [name]; none is a method of a prototype): a [TypeError]
    on [undefined] and [null], an own property otherwise. *)
Definition prop (v : value) (k : string) : outcome value :=
  match v with
  | VUndef | VNull => Throw TypeError
  | VObj o => Ok (get o k)
  | VArr a =>
      if String.eqb k "length" then Ok (VNum (Num.of_Z (Z.of_nat (length a))))
      else Ok (default VUndef (i ← index_of k; a !! i))
  | VStr s =>
      if String.eqb k "length" then Ok (VNum (Num.of_Z (Z.of_nat (String.length s))))
      else Ok (default VUndef (i ← index_of k; VStr <$> Str.chars s !! i))
  | VBool _ | VNum _ => Ok VUndef
  end.

End JS.

Import JS.

(** ** The document and its window *)

(** What [getBoundingClientRect] returns. *)
Record DOMRect := {
  rect_top : number;
  rect_left : number;
  rect_right : number;
  rect_bottom : number;
  rect_width : number;
  rect_height : number;
}.

(** A DOM element, as far as [utils.js] looks at it. *)
Record element := { getBoundingClientRect : DOMRect }.

(** The globals [window] and [document.documentElement]; [clientTop],
    [clientLeft], [innerHeight] and [innerWidth] are [long] attributes. *)
Record window := {
  pageYOffset : number;
  pageXOffset : number;
  scrollTop : number;
  clientTop : Z;
  scrollLeft : number;
  clientLeft : Z;
  innerHeight : Z;
  innerWidth : Z;
}.

(** ** [utils.js] *)

Section Utils.

Variable win : window.

(** [position(el)]: the rectangle of [el] in document coordinates. *)
Definition position (el : element) : object :=
  let pos := getBoundingClientRect el in
  let winTop :=
    Num.sub (if Num.truthy (pageYOffset win) then pageYOffset win else scrollTop win)
            (Num.of_Z (clientTop win)) in
  let winLeft :=
    Num.sub (if Num.truthy (pageXOffset win) then pageXOffset win else scrollLeft win)
            (Num.of_Z (clientLeft win)) in
  {[ "top" := VNum (Num.add (rect_top pos) winTop);
     "left" := VNum (Num.add (rect_left pos) winLeft);
     "right" := VNum (Num.add (rect_right pos) winLeft);
     "bottom" := VNum (Num.add (rect_bottom pos) winTop);
     "width" := VNum (rect_width pos);
     "height" := VNum (rect_height pos) ]}.

(** The template literal [`${e}px`]. *)
Definition px (e : outcome value) : outcome value :=
  v ← e; s ← to_string v; Ok (VStr (s +:+ "px")).

(** [placement(place, tooltip, origin)]: two [switch] statements on
    [place], the first for the cross axis, the second for the main one. *)
Definition placement (place : value) (tooltip origin : element) : outcome object :=
  let gap := VNum (Num.of_Z 12) in
  let tip := position tooltip in
  let pos := position origin in
  let offset : object := {[ "width" := get tip "width"; "height" := get tip "height" ]} in
  offset ←
    (if str_is place "top" || str_is place "bottom" then
       v ← px (minus (plus (Ok (get pos "left"))
                           (times (Ok (get pos "width")) (Ok (VNum Num.half))))
                     (times (Ok (get tip "width")) (Ok (VNum Num.half))));
       Ok (<["left" := v]> offset)
     else if str_is place "left" || str_is place "right" then
       v ← px (minus (plus (Ok (get pos "top"))
                           (times (Ok (get pos "height")) (Ok (VNum Num.half))))
                     (times (Ok (get tip "height")) (Ok (VNum Num.half))));
       Ok (<["top" := v]> offset)
     else Ok offset);
  offset ←
    (if str_is place "top" then
       v ← px (minus (minus (Ok (get pos "top")) (Ok (get tip "height"))) (Ok gap));
       Ok (<["top" := v]> offset)
     else if str_is place "right" then
       v ← px (plus (Ok (get pos "right")) (Ok gap));
       Ok (<["left" := v]> offset)
     else if str_is place "bottom" then
       v ← px (plus (plus (Ok (get pos "top")) (Ok (get pos "height"))) (Ok gap));
       Ok (<["top" := v]> offset)
     else if str_is place "left" then
       v ← px (minus (minus (Ok (get pos "left")) (Ok (get tip "width"))) (Ok gap));
       Ok (<["left" := v]> offset)
     else Ok offset);
  Ok offset.

(** The message of the error [opposite] throws, for an argument that
    prints as [s]. *)
Definition unknown_direction_message (s : string) : string :=
  "Unknown direction: " +:+ String "034" (s +:+ String "034" EmptyString).

(** [throw new Error(`Unknown direction: "${dir}"`)]: the template
    literal is evaluated first. *)
Definition throw_unknown_direction {A : Type} (dir : value) : outcome A :=
  s ← to_string dir; Throw (Error (unknown_direction_message s)).

(** [opposite(dir)]. *)
Definition opposite (dir : value) : outcome value :=
  place ←
    (if String.eqb (typeof dir) "object" then
       len ← prop dir "length";
       nonempty ← (if String.eqb (typeof len) "number" then lt (VNum Num.zero) len
                   else Ok false);
       if (nonempty : bool) then prop dir "0" else Ok dir
     else Ok dir);
  if str_is place "top" then Ok (VStr "bottom")
  else if str_is place "bottom" then Ok (VStr "top")
  else if str_is place "right" then Ok (VStr "left")
  else if str_is place "left" then Ok (VStr "right")
  else throw_unknown_direction dir.

(** [intersection(area1, area2)]. *)
Definition intersection (area1 area2 : object) : outcome object :=
  let area : object := ∅ in
  v ← max (get area1 "top") (get area2 "top");
  let area := <["top" := v]> area in
  x ← add (get area1 "left") (get area1 "width");
  y ← add (get area2 "left") (get area2 "width");
  v ← min x y;
  let area := <["right" := v]> area in
  x ← add (get area1 "top") (get area1 "height");
  y ← add (get area2 "top") (get area2 "height");
  v ← min x y;
  let area := <["bottom" := v]> area in
  v ← max (get area1 "left") (get area2 "left");
  let area := <["left" := v]> area in
  v ← sub (get area "bottom") (get area "top");
  let area := <["height" := v]> area in
  v ← sub (get area "right") (get area "left");
  let area := <["width" := v]> area in
  Ok area.

(** [defaultArea()]: the content area of the browser. *)
Definition defaultArea : object :=
  {[ "height" := VNum (Num.of_Z (innerHeight win));
     "width" := VNum (Num.of_Z (innerWidth win)) ]}.

Definition STRIP_FOR : list string :=
  ["top"; "left"; "right"; "bottom"; "width"; "height"].

(** The callback of [STRIP_FOR.forEach]: a property that holds a string
    gets the number [parseFloat] reads in it, a first [px] taken out. *)
Definition strip_prop (data : object) (prop : string) : object :=
  match get data prop with
  | VStr s => <[prop := VNum (Str.parseFloat (Str.replace "px" EmptyString s))]> data
  | _ => data
  end.

(** [strip(obj)]: a copy of [obj] with the properties of [STRIP_FOR]
    stripped. *)
Definition strip (obj : object) : object := foldl strip_prop obj STRIP_FOR.

(** [typeof v === 'number']. *)
Definition is_number (v : value) : bool := String.eqb (typeof v) "number".

(** [amend(area)]. *)
Definition amend (area : object) : outcome object :=
  let data := strip area in
  let data := if negb (is_number (get data "top")) then <["top" := VNum Num.zero]> data else data in
  let data := if negb (is_number (get data "left")) then <["left" := VNum Num.zero]> data else data in
  data ←
    (if negb (is_number (get data "right")) && is_number (get data "width")
     then v ← add (get data "left") (get data "width"); Ok (<["right" := v]> data)
     else Ok data);
  data ←
    (if negb (is_number (get data "bottom")) && is_number (get data "height")
     then v ← add (get data "top") (get data "height"); Ok (<["bottom" := v]> data)
     else Ok data);
  Ok data.

(** [overDirs(tip, el = null)]. *)
Definition overDirs (tip : object) (el : option element) : outcome (list string) :=
  tip ← amend tip;
  area ← amend defaultArea;
  area ← match el with
         | Some e => intersection area (position e)
         | None => Ok area
         end;
  let dirs : list string := [] in
  b ← lt (get tip "top") (get area "top");
  let dirs := if (b : bool) then dirs ++ ["top"] else dirs in
  b ← lt (get area "right") (get tip "right");
  let dirs := if (b : bool) then dirs ++ ["right"] else dirs in
  b ← lt (get area "bottom") (get tip "bottom");
  let dirs := if (b : bool) then dirs ++ ["bottom"] else dirs in
  b ← lt (get tip "left") (get area "left");
  let dirs := if (b : bool) then dirs ++ ["left"] else dirs in
  Ok dirs.

(** The object [{ offset: props, place: current }]. *)
Record result := { offset : object; place : value }.

(** The [while] loop of [adjust] over [tries]; [first] is [None] while
    the variable is undefined, and so is the value returned. *)
Fixpoint adjust_loop (tooltip origin : element) (tries : list value)
    (first : option result) : outcome (option result) :=
  match tries with
  | [] => Ok first
  | current :: tries =>
      props ← placement current tooltip origin;
      let first :=
        match first with
        | None => Some {| offset := props; place := current |}
        | Some _ => first
        end in
      dirs ← overDirs props None;
      if Nat.eqb (length dirs) 0 then Ok (Some {| offset := props; place := current |})
      else adjust_loop tooltip origin tries first
  end.

End Utils.

(** The arrays a caller and [adjust] share: the store maps the location
    of an array to its elements. *)
Definition loc := positive.
Abbreviation store := (gmap loc (list value)).

(** The argument [place] of [adjust]: a string, or (a reference to) an
    array. *)
Inductive place_arg :=
  | PStr (s : string)
  | PArr (l : loc).

(** [adjust(place, tooltip, origin, auto = true)]. The array [split]
    and [map] build is new; [push] writes to the array [place] refers to;
    [[...place]] copies an array, or spreads the characters of a string.
    A location outside the store refers to no object, reading its
    [length] throws. *)
Definition adjust (win : window) (σ : store) (place : place_arg)
    (tooltip origin : element) (auto : bool) : store * outcome (option result) :=
  let '(σ, place) :=
    match place with
    | PStr s =>
        if auto then
          let l := fresh (dom σ) in
          (<[l := (fun p => VStr (Str.trim p)) <$> Str.split "," s]> σ, PArr l)
        else (σ, place)
    | PArr _ => (σ, place)
    end in
  match place with
  | PStr s =>
      if Nat.eqb (String.length s) 1 then
        (σ, _ ← opposite (VStr s); Throw TypeError)
      else (σ, adjust_loop win tooltip origin (VStr <$> Str.chars s) None)
  | PArr l =>
      match σ !! l with
      | None => (σ, Throw TypeError)
      | Some a =>
          if Nat.eqb (length a) 1 then
            match opposite (VArr a) with
            | Ok o =>
                let a := a ++ [o] in
                (<[l := a]> σ, adjust_loop win tooltip origin a None)
            | Throw e => (σ, Throw e)
            end
          else (σ, adjust_loop win tooltip origin a None)
      end
  end.

(** [a && b], with [b] evaluated only when [a] is truthy. *)
Definition and_then (a : value) (b : outcome value) : outcome value :=
  if truthy a then b else Ok a.

(** [resolve(obj)]. *)
Definition resolve (obj : value) : outcome value :=
  c ← and_then obj (prop obj "payload");
  c ← and_then c (p ← prop obj "payload"; prop p "name");
  names ←
    (if truthy c then p ← prop obj "payload"; prop p "name"
     else
       c ← and_then obj (prop obj "name");
       if truthy c then prop obj "name"
       else Ok (VArr [VStr "default"]));
  Ok (if String.eqb (typeof names) "string" then VArr [names] else names).

(** ** Vocabulary of the design document *)

(** The four directions. *)
Definition directions : list string := ["top"; "right"; "bottom"; "left"].

Definition is_direction (d : string) : bool := existsb (String.eqb d) directions.

(** What [strip] leaves in a property that held [v]. *)
Definition strip_value (v : value) : value :=
  match v with
  | VStr s => VNum (Str.parseFloat (Str.replace "px" EmptyString s))
  | _ => v
  end.

(** The number a property of an object holds. *)
Definition num (o : object) (k : string) : number := number_of (get o k).

(** A rectangle fully specified with numbers, [right] and [bottom] being
    the sums [left + width] and [top + height]. *)
Definition full_rect (a : object) : Prop :=
  exists t l w h : number,
    get a "top" = VNum t /\ get a "left" = VNum l
    /\ get a "width" = VNum w /\ get a "height" = VNum h
    /\ get a "right" = VNum (Num.add l w) /\ get a "bottom" = VNum (Num.add t h).

(** A number of pixels as a string. *)
Definition pixels (x : number) : value := VStr (Num.to_string x +:+ "px").

(** Whether the placement of the candidate [d] stays inside the viewport:
    [overDirs] reports no edge. *)
Definition fits (win : window) (tooltip origin : element) (d : value) : bool :=
  match props ← placement win d tooltip origin; overDirs win props None with
  | Ok dirs => Nat.eqb (length dirs) 0
  | Throw _ => false
  end.

(** [r] is the placement result of the candidate [d]. *)
Definition placed (win : window) (tooltip origin : element) (d : value) (r : result) : Prop :=
  place r = d /\ placement win d tooltip origin = Ok (offset r).

(** The list [adjust] is given: the trimmed pieces of a string when [auto]
    is on, the elements of an array. *)
Definition given_list (σ : store) (place : place_arg) (auto : bool) : option (list value) :=
  match place with
  | PStr s => if auto then Some ((fun p => VStr (Str.trim p)) <$> Str.split "," s) else None
  | PArr l => σ !! l
  end.

(** The candidates: a list of one element with the opposite appended,
    any other list as it is. *)
Definition candidates (a cands : list value) : Prop :=
  match a with
  | [d] => exists o, opposite (VArr a) = Ok o /\ cands = [d; o]
  | _ => cands = a
  end.

(** The first candidate that fits, the first candidate [d0] if none
    does. *)
Definition first_fit (win : window) (tooltip origin : element)
    (cands : list value) (d0 : value) : value :=
  default d0 (find (fits win tooltip origin) cands).

(** The value [opposite] looks at: the first element of a non-empty
    array, or of an object whose [length] is a positive number; the
    argument itself otherwise. *)
Definition looked_at (dir : value) : value :=
  match dir with
  | VArr (d :: _) => d
  | VObj o =>
      match get o "length" with
      | VNum n => if Num.ltb Num.zero n then get o "0" else dir
      | _ => dir
      end
  | _ => dir
  end.

(** The pairs top-bottom and right-left. *)
Definition opposite_of (v : value) : option string :=
  match v with
  | VStr d =>
      if String.eqb d "top" then Some "bottom"
      else if String.eqb d "bottom" then Some "top"
      else if String.eqb d "right" then Some "left"
      else if String.eqb d "left" then Some "right"
      else None
  | _ => None
  end.

(** One of the four directions, or a non-empty list whose first element
    is one of them. *)
Definition recognised (dir : value) : bool :=
  match dir with
  | VStr d => is_direction d
  | VArr (VStr d :: _) => is_direction d
  | _ => false
  end.

(** The documented type of the argument of [opposite]: a string or an
    array. *)
Definition string_or_array (dir : value) : bool :=
  match dir with
  | VStr _ | VArr _ => true
  | _ => false
  end.

(** [resolve] according to the design document, a field counting when it
    is truthy: [payload.name], else [name], else [["default"]], a string
    wrapped into a list. *)
Definition field (v : value) (k : string) : value :=
  match v with VObj o => get o k | _ => VUndef end.

Definition wrap (names : value) : value :=
  match names with VStr _ => VArr [names] | _ => names end.

Definition resolve_spec (obj : value) : value :=
  if truthy (field (field obj "payload") "name") then wrap (field (field obj "payload") "name")
  else if truthy (field obj "name") then wrap (field obj "name")
  else VArr [VStr "default"].

(** ** The window and the elements of the examples *)

Module Examples.

Definition n (z : Z) : number := Num.of_Z z.

(** A page that is not scrolled, in a viewport of 1000 by 1000. *)
Definition page : window :=
  {| pageYOffset := n 0; pageXOffset := n 0; scrollTop := n 0; clientTop := 0;
     scrollLeft := n 0; clientLeft := 0; innerHeight := 1000; innerWidth := 1000 |}.

(** An element whose box is at [(t, l)] with size [w] by [h]. *)
Definition box (t l w h : Z) : element :=
  {| getBoundingClientRect :=
       {| rect_top := n t; rect_left := n l; rect_right := n (l + w);
          rect_bottom := n (t + h); rect_width := n w; rect_height := n h |} |}.

Definition anchor : element := box 100 100 50 20.
Definition tooltip : element := box 0 0 30 10.

(** An anchor five pixels below the top of the page: no room above. *)
Definition high_anchor : element := box 5 100 50 20.
(** An anchor in the top left corner: no room above nor to the left. *)
Definition corner_anchor : element := box 5 5 50 20.

(** The rectangle at [(t, l)] with size [w] by [h], fully specified. *)
Definition rect (t l w h : Z) : object :=
  {[ "top" := VNum (n t); "left" := VNum (n l);
     "width" := VNum (n w); "height" := VNum (n h);
     "right" := VNum (Num.add (n l) (n w)); "bottom" := VNum (Num.add (n t) (n h)) ]}.

End Examples.

(** ** Vocabulary of the further properties *)

(** Membership in a list that is written out. *)
Ltac in_list :=
  unfold STRIP_FOR; repeat first [apply list_elem_of_here | apply list_elem_of_further].

(** What [amend] establishes: numbers in [top] and [left], no string in
    the six properties, and [right] ([bottom]) a number unless [width]
    ([height]) is none. *)
Definition amended (a : object) : Prop :=
  is_number (get a "top") = true
  /\ is_number (get a "left") = true
  /\ (is_number (get a "right") = false -> is_number (get a "width") = false)
  /\ (is_number (get a "bottom") = false -> is_number (get a "height") = false)
  /\ (forall k : string, k ∈ STRIP_FOR -> typeof (get a k) <> "string"%string).

(** A value that is one of the four directions. *)
Definition is_direction_value (v : value) : bool :=
  match v with VStr d => is_direction d | _ => false end.

(** A value that is neither an array nor an object. *)
Definition primitive (v : value) : bool :=
  match v with VArr _ | VObj _ => false | _ => true end.

(** The bounding box as an object. *)
Definition rect_object (r : DOMRect) : object :=
  {[ "top" := VNum (rect_top r); "left" := VNum (rect_left r);
     "right" := VNum (rect_right r); "bottom" := VNum (rect_bottom r);
     "width" := VNum (rect_width r); "height" := VNum (rect_height r) ]}.

(** No coordinate of the box is the negative zero. *)
Definition no_negative_zero (r : DOMRect) : Prop :=
  rect_top r <> S754_zero true /\ rect_left r <> S754_zero true
  /\ rect_right r <> S754_zero true /\ rect_bottom r <> S754_zero true.

(** The list of the edges whose test holds. *)
Definition edges (top right bottom left : bool) : list string :=
  (if top then ["top"] else []) ++ (if right then ["right"] else [])
  ++ (if bottom then ["bottom"] else []) ++ (if left then ["left"] else []).

(** The four tests of [overDirs] against an area, in the order they are
    evaluated. *)
Definition violated (t area : object) : outcome (list string) :=
  top ← lt (get t "top") (get area "top");
  right ← lt (get area "right") (get t "right");
  bottom ← lt (get area "bottom") (get t "bottom");
  left ← lt (get t "left") (get area "left");
  Ok (edges top right bottom left).

(** ** What [amend] and [placement] return *)

(** The object [amend] returns: [amend_returns] below shows that [amend]
    returns it, and so never throws. *)
Definition amend_value (area : object) : object :=
  let data := strip area in
  let data := if negb (is_number (get data "top")) then <["top" := VNum Num.zero]> data else data in
  let data := if negb (is_number (get data "left")) then <["left" := VNum Num.zero]> data else data in
  let data :=
    if negb (is_number (get data "right")) && is_number (get data "width")
    then <["right" := VNum (Num.add (num data "left") (num data "width"))]> data
    else data in
  let data :=
    if negb (is_number (get data "bottom")) && is_number (get data "height")
    then <["bottom" := VNum (Num.add (num data "top") (num data "height"))]> data
    else data in
  data.

(** The object [placement] returns, see [placement_returns]. *)
Definition placement_value (win : window) (place : value) (tooltip origin : element) : object :=
  let gap := Num.of_Z 12 in
  let tip := position win tooltip in
  let pos := position win origin in
  let offset : object := {[ "width" := get tip "width"; "height" := get tip "height" ]} in
  let offset :=
    if str_is place "top" || str_is place "bottom" then
      <["left" := pixels (Num.sub (Num.add (num pos "left") (Num.mul (num pos "width") Num.half))
                                  (Num.mul (num tip "width") Num.half))]> offset
    else if str_is place "left" || str_is place "right" then
      <["top" := pixels (Num.sub (Num.add (num pos "top") (Num.mul (num pos "height") Num.half))
                                 (Num.mul (num tip "height") Num.half))]> offset
    else offset in
  if str_is place "top" then
    <["top" := pixels (Num.sub (Num.sub (num pos "top") (num tip "height")) gap)]> offset
  else if str_is place "right" then
    <["left" := pixels (Num.add (num pos "right") gap)]> offset
  else if str_is place "bottom" then
    <["top" := pixels (Num.add (Num.add (num pos "top") (num pos "height")) gap)]> offset
  else if str_is place "left" then
    <["left" := pixels (Num.sub (Num.sub (num pos "left") (num tip "width")) gap)]> offset
  else offset.

(** The result [adjust] returns for the candidate [d]. *)
Definition placed_value (win : window) (tooltip origin : element) (d : value) : result :=
  {| offset := placement_value win d tooltip origin; place := d |}.

(** ** Facts about numbers *)

Module NumFacts.
Import Num.

(** *** Shifting a mantissa to the right keeps it positive *)

Lemma iter_pos_nat {A} (f : A -> A) (n : positive) (x : A) :
  SpecFloat.iter_pos f n x = Nat.iter (Pos.to_nat n) f x.
Proof.
  revert x. induction n as [n IH | n IH |]; intros x.
  - change (SpecFloat.iter_pos f n~1 x)
      with (SpecFloat.iter_pos f n (SpecFloat.iter_pos f n (f x))).
    rewrite !IH, Pos2Nat.inj_xI.
    replace (S (2 * Pos.to_nat n))%nat with (Pos.to_nat n + (Pos.to_nat n + 1))%nat by lia.
    rewrite !Nat.iter_add. reflexivity.
  - change (SpecFloat.iter_pos f n~0 x)
      with (SpecFloat.iter_pos f n (SpecFloat.iter_pos f n x)).
    rewrite !IH, Pos2Nat.inj_xO.
    replace (2 * Pos.to_nat n)%nat with (Pos.to_nat n + Pos.to_nat n)%nat by lia.
    rewrite Nat.iter_add. reflexivity.
  - reflexivity.
Qed.

Lemma shr_1_pos mrs m :
  shr_m mrs = Zpos m -> (1 < Pos.to_nat (digits2_pos m))%nat ->
  exists m', shr_m (shr_1 mrs) = Zpos m' /\ digits2_pos m = Pos.succ (digits2_pos m').
Proof.
  destruct mrs as [mm r s]; simpl. intros -> Hd.
  destruct m as [p | p |]; simpl in *; [exists p | exists p | lia]; auto.
Qed.

Lemma shr_iter_pos j : forall mrs m,
  shr_m mrs = Zpos m -> (j < Pos.to_nat (digits2_pos m))%nat ->
  exists m', shr_m (Nat.iter j shr_1 mrs) = Zpos m'.
Proof.
  induction j as [| j IH]; intros mrs m Hm Hj.
  - exists m. exact Hm.
  - rewrite Nat.iter_succ_r.
    destruct (shr_1_pos mrs m Hm) as (m' & Hm' & Hd); [lia |].
    apply (IH _ m' Hm'). rewrite Hd, Pos2Nat.inj_succ in Hj. lia.
Qed.

Lemma shr_record_of_loc_m m l : shr_m (shr_record_of_loc m l) = m.
Proof. destruct l as [| []]; reflexivity. Qed.

Lemma shr_fexp_pos m e l :
  emin prec emax <= e ->
  exists mrs e', shr_fexp prec emax (Zpos m) e l = (mrs, e')
                 /\ (exists m', shr_m mrs = Zpos m') /\ emin prec emax <= e'.
Proof.
  intros He. unfold shr_fexp, shr.
  destruct (fexp prec emax (Zdigits2 (Z.pos m) + e) - e) as [| k | k] eqn:Hk.
  - eexists _, _. split; [reflexivity |]. split; [| exact He].
    exists m. apply shr_record_of_loc_m.
  - eexists _, _. split; [reflexivity |]. split; [| lia].
    rewrite iter_pos_nat. apply (shr_iter_pos _ _ m (shr_record_of_loc_m _ _)).
    unfold fexp, emin, prec, emax in *. simpl Zdigits2 in Hk. lia.
  - eexists _, _. split; [reflexivity |]. split; [| exact He].
    exists m. apply shr_record_of_loc_m.
Qed.

(** A number that is neither a zero nor NaN, of sign [s]. *)
Definition nonzero (s : bool) (x : number) : Prop :=
  (exists m e, x = S754_finite s m e) \/ x = S754_infinity s.

Lemma binary_round_aux_nonzero s m e l :
  emin prec emax <= e -> nonzero s (binary_round_aux prec emax s (Zpos m) e l).
Proof.
  intros He. unfold binary_round_aux.
  destruct (shr_fexp_pos m e l He) as (mrs & e' & -> & (m' & Hm') & He').
  assert (exists m2, round_nearest_even (shr_m mrs) (loc_of_shr_record mrs) = Zpos m2) as (m2 & ->).
  { rewrite Hm'. unfold round_nearest_even.
    destruct (loc_of_shr_record mrs) as [| []]; eauto.
    destruct (Z.even (Z.pos m')); eauto. }
  destruct (shr_fexp_pos m2 e' loc_Exact He') as (mrs2 & e2 & -> & (m3 & ->) & He2).
  destruct (e2 <=? emax - prec); [left | right]; eauto.
Qed.

Lemma binary_round_nonzero s m : nonzero s (binary_round prec emax s m 0).
Proof.
  unfold binary_round, shl_align.
  destruct (fexp prec emax (Z.pos (digits2_pos m) + 0) - 0) eqn:Hk;
    apply binary_round_aux_nonzero; unfold fexp, emin, prec, emax in *; lia.
Qed.

Lemma of_Z_cases z :
  (z = 0 /\ of_Z z = zero) \/ (z <> 0 /\ nonzero (z <? 0) (of_Z z)).
Proof.
  destruct z as [| p | p]; [left | right | right]; split; try easy;
    apply binary_round_nonzero.
Qed.

Lemma add_zero_of_Z z : add zero (of_Z z) = of_Z z.
Proof.
  destruct (of_Z_cases z) as [[_ ->] | [_ [(m & e & ->) | ->]]]; reflexivity.
Qed.

Lemma of_Z_positive z : 0 < z -> ltb zero (of_Z z) = true.
Proof.
  intros Hz. destruct (of_Z_cases z) as [[-> _] | [_ H]]; [lia |].
  replace (z <? 0) with false in H by (symmetry; apply Z.ltb_ge; lia).
  destruct H as [(m & e & ->) | ->]; reflexivity.
Qed.

Lemma of_Z_not_positive z : z <= 0 -> ltb zero (of_Z z) = false.
Proof.
  intros Hz. destruct (of_Z_cases z) as [[-> _] | [Hne H]]; [reflexivity |].
  replace (z <? 0) with true in H by (symmetry; apply Z.ltb_lt; lia).
  destruct H as [(m & e & ->) | ->]; reflexivity.
Qed.

(** *** NaN is absorbing *)

Lemma add_nan_l x : add nan x = nan.
Proof. reflexivity. Qed.

Lemma add_nan_r x : add x nan = nan.
Proof. destruct x as [[] | [] | |]; reflexivity. Qed.

(** *** [Math.max] and [Math.min] are commutative *)

Lemma compare_antisym x y :
  SFcompare y x = CompOpp <$> SFcompare x y.
Proof.
  destruct x as [[] | [] | | [] mx ex], y as [[] | [] | | [] my ey]; try reflexivity;
    simpl; rewrite (Z.compare_antisym ex ey);
    destruct (ex ?= ey); simpl; try reflexivity;
    rewrite (Pos.compare_cont_antisym mx my Eq); reflexivity.
Qed.

Lemma compare_eq x y :
  SFcompare x y = Some Eq -> x = y \/ exists s t, x = S754_zero s /\ y = S754_zero t.
Proof.
  destruct x as [[] | [] | | [] mx ex], y as [[] | [] | | [] my ey]; simpl;
    try discriminate; eauto;
    destruct (ex ?= ey) eqn:He; try discriminate;
    apply Z.compare_eq in He; subst;
    intros H; left; f_equal; apply Pos.compare_eq.
  - injection H as H. destruct (Pos.compare_cont Eq mx my) eqn:Hc; try discriminate.
    unfold Pos.compare. exact Hc.
  - injection H as H. exact H.
Qed.

Lemma max_comm x y : max x y = max y x.
Proof.
  unfold max. rewrite (orb_comm (is_nan y)).
  destruct (is_nan x || is_nan y) eqn:Hn; [reflexivity |].
  unfold ltb, SFltb. rewrite (compare_antisym x y).
  destruct (SFcompare x y) as [[] |] eqn:Hc; simpl.
  - destruct (compare_eq x y Hc) as [-> | (s & t & -> & ->)].
    + destruct y as [[] | | |]; reflexivity.
    + destruct s, t; reflexivity.
  - destruct x as [[] | | |], y as [[] | | |]; try reflexivity; discriminate.
  - destruct x as [[] | | |], y as [[] | | |]; try reflexivity; discriminate.
  - destruct x as [[] | | |], y as [[] | | |]; try reflexivity; discriminate.
Qed.

Lemma min_comm x y : min x y = min y x.
Proof.
  unfold min. rewrite (orb_comm (is_nan y)).
  destruct (is_nan x || is_nan y) eqn:Hn; [reflexivity |].
  unfold ltb, SFltb. rewrite (compare_antisym x y).
  destruct (SFcompare x y) as [[] |] eqn:Hc; simpl.
  - destruct (compare_eq x y Hc) as [-> | (s & t & -> & ->)].
    + destruct y as [[] | | |]; reflexivity.
    + destruct s, t; reflexivity.
  - destruct x as [[] | | |], y as [[] | | |]; try reflexivity; discriminate.
  - destruct x as [[] | | |], y as [[] | | |]; try reflexivity; discriminate.
  - destruct x as [[] | | |], y as [[] | | |]; try reflexivity; discriminate.
Qed.

End NumFacts.

(** ** Facts about objects *)

Section ObjectFacts.

Implicit Types (o data : object) (k p : string) (v : value).

Lemma get_insert o k v : get (<[k := v]> o) k = v.
Proof. unfold get. by rewrite lookup_insert_eq. Qed.

Lemma get_insert_ne o k p v : k ≠ p -> get (<[k := v]> o) p = get o p.
Proof. intros Hne. unfold get. by rewrite lookup_insert_ne. Qed.

Lemma get_lookup o k v : o !! k = Some v -> get o k = v.
Proof. unfold get. by intros ->. Qed.

Lemma get_absent o k : o !! k = None -> get o k = VUndef.
Proof. unfold get. by intros ->. Qed.

Lemma strip_value_idemp v : strip_value (strip_value v) = strip_value v.
Proof. by destruct v. Qed.

Lemma strip_prop_get data p k :
  get (strip_prop data p) k = if decide (k = p) then strip_value (get data p) else get data k.
Proof.
  unfold strip_prop. case_decide as Hk; [subst k |].
  - destruct (get data p) eqn:Hp; simpl; rewrite ?get_insert; congruence.
  - destruct (get data p); try reflexivity. by rewrite get_insert_ne.
Qed.

Lemma foldl_strip_prop_get (l : list string) : forall data k,
  get (foldl strip_prop data l) k
  = if decide (k ∈ l) then strip_value (get data k) else get data k.
Proof.
  induction l as [| p l IH]; intros data k; cbn [foldl].
  - destruct (decide (k ∈ [])) as [H | _]; [by apply elem_of_nil in H | reflexivity].
  - rewrite IH, strip_prop_get.
    destruct (decide (k = p)) as [-> | Hne].
    + rewrite strip_value_idemp.
      rewrite (decide_True (P := p ∈ p :: l)) by apply list_elem_of_here.
      by destruct (decide (p ∈ l)).
    + destruct (decide (k ∈ l)) as [Hin | Hnin].
      * by rewrite decide_True by (by apply list_elem_of_further).
      * rewrite decide_False; [done |]. by intros [? | ?]%elem_of_cons.
Qed.

(** [strip] strips the six properties and keeps the others. *)
Lemma strip_get data k :
  get (strip data) k
  = if decide (k ∈ STRIP_FOR) then strip_value (get data k) else get data k.
Proof. apply foldl_strip_prop_get. Qed.

Lemma strip_not_string data k s : get (strip data) k = VStr s -> k ∉ STRIP_FOR.
Proof.
  rewrite strip_get. case_decide; [| done].
  by destruct (get data k).
Qed.

(** Case analysis on the tests of [amend] over the stripped object [s]. *)
Ltac amend_cases s :=
  repeat (repeat first [rewrite get_insert | rewrite get_insert_ne by done];
          match goal with
          | |- context [is_number (get s ?k)] =>
              let H := fresh "Hnum" in destruct (is_number (get s k)) eqn:H
          end; cbn [negb andb]);
  repeat first [rewrite get_insert | rewrite get_insert_ne by done].

(** The four properties [amend] may write, in terms of [strip]; the
    others are those of [strip]. *)
Lemma amend_top data :
  get (amend_value data) "top"
  = if is_number (get (strip data) "top") then get (strip data) "top" else VNum Num.zero.
Proof. unfold amend_value. set (s := strip data). amend_cases s; reflexivity. Qed.

Lemma amend_left data :
  get (amend_value data) "left"
  = if is_number (get (strip data) "left") then get (strip data) "left" else VNum Num.zero.
Proof. unfold amend_value. set (s := strip data). amend_cases s; reflexivity. Qed.

Lemma amend_right data :
  get (amend_value data) "right"
  = if negb (is_number (get (strip data) "right")) && is_number (get (strip data) "width")
    then VNum (Num.add (num (amend_value data) "left") (num (strip data) "width"))
    else get (strip data) "right".
Proof.
  unfold num. rewrite amend_left. unfold amend_value, num. set (s := strip data).
  amend_cases s; reflexivity.
Qed.

Lemma amend_bottom data :
  get (amend_value data) "bottom"
  = if negb (is_number (get (strip data) "bottom")) && is_number (get (strip data) "height")
    then VNum (Num.add (num (amend_value data) "top") (num (strip data) "height"))
    else get (strip data) "bottom".
Proof.
  unfold num. rewrite amend_top. unfold amend_value, num. set (s := strip data).
  amend_cases s; reflexivity.
Qed.

Lemma amend_other data k :
  k ∉ ["top"; "left"; "right"; "bottom"] -> get (amend_value data) k = get (strip data) k.
Proof.
  intros Hk. repeat (apply not_elem_of_cons in Hk as [? Hk]).
  unfold amend_value. set (s := strip data). amend_cases s; reflexivity.
Qed.

(** [amend] always leaves numbers in [top] and [left]. *)
Lemma amend_top_number data : exists t, get (amend_value data) "top" = VNum t.
Proof.
  rewrite amend_top. destruct (get (strip data) "top") eqn:H; simpl; eauto.
Qed.

Lemma amend_left_number data : exists l, get (amend_value data) "left" = VNum l.
Proof.
  rewrite amend_left. destruct (get (strip data) "left") eqn:H; simpl; eauto.
Qed.

(** Properties are never removed, and [width] and [height] are only
    ever stripped. *)
Lemma strip_prop_lookup data p k :
  strip_prop data p !! k
  = if decide (k = p) then strip_value <$> data !! p else data !! k.
Proof.
  unfold strip_prop, get.
  destruct (decide (k = p)) as [-> | Hne].
  - destruct (data !! p) as [[] |] eqn:Hp; simpl; rewrite ?lookup_insert_eq; congruence.
  - destruct (data !! p) as [[] |]; simpl; try reflexivity. by rewrite lookup_insert_ne.
Qed.

Lemma foldl_strip_prop_lookup (l : list string) : forall data k,
  foldl strip_prop data l !! k
  = if decide (k ∈ l) then strip_value <$> data !! k else data !! k.
Proof.
  induction l as [| p l IH]; intros data k; cbn [foldl].
  - destruct (decide (k ∈ [])) as [H | _]; [by apply elem_of_nil in H | reflexivity].
  - rewrite IH, strip_prop_lookup.
    destruct (decide (k = p)) as [-> | Hne].
    + rewrite (decide_True (P := p ∈ p :: l)) by apply list_elem_of_here.
      destruct (decide (p ∈ l)); [| done].
      destruct (data !! p) as [v |]; simpl; [| done]. by rewrite strip_value_idemp.
    + destruct (decide (k ∈ l)) as [Hin | Hnin].
      * by rewrite decide_True by (by apply list_elem_of_further).
      * rewrite decide_False; [done |]. by intros [? | ?]%elem_of_cons.
Qed.

Lemma strip_lookup data k :
  strip data !! k
  = if decide (k ∈ STRIP_FOR) then strip_value <$> data !! k else data !! k.
Proof. apply foldl_strip_prop_lookup. Qed.

Lemma amend_lookup_other data k :
  k ∉ ["top"; "left"; "right"; "bottom"] -> amend_value data !! k = strip data !! k.
Proof.
  intros Hk. repeat (apply not_elem_of_cons in Hk as [? Hk]).
  unfold amend_value. set (s := strip data). amend_cases s;
    repeat (rewrite lookup_insert_ne by done); reflexivity.
Qed.

(** The operators on numbers. *)
Lemma add_numbers (x y : number) : add (VNum x) (VNum y) = Ok (VNum (Num.add x y)).
Proof. reflexivity. Qed.

Lemma lt_numbers (x y : number) : lt (VNum x) (VNum y) = Ok (Num.ltb x y).
Proof. reflexivity. Qed.

Lemma is_number_inv v : is_number v = true -> exists x, v = VNum x.
Proof. destruct v; try discriminate. eauto. Qed.

End ObjectFacts.

(** ** [amend] and [placement] always return *)

Section ReturnFacts.

Implicit Types (o data : object) (k p : string) (v : value).

Lemma bind_Ok {A B : Type} (a : A) (f : A -> outcome B) : (Ok a ≫= f) = f a.
Proof. reflexivity. Qed.

Lemma bind_ext {A B : Type} (m : outcome A) (f g : A -> outcome B) :
  (forall a : A, f a = g a) -> (m ≫= f) = (m ≫= g).
Proof. intros H. destruct m; [apply H | reflexivity]. Qed.

Lemma Ok_inj {A : Type} (x y : A) : Ok x = Ok y -> x = y.
Proof. by intros [= ->]. Qed.

(** The embedding of [amend] returns [amend_value]. *)
Lemma amend_returns (r : object) : amend r = Ok (amend_value r).
Proof.
  unfold amend, amend_value, num. cbv zeta. set (s := strip r).
  set (d1 := if negb (is_number (get s "top")) then <["top" := VNum Num.zero]> s else s).
  set (d2 := if negb (is_number (get d1 "left")) then <["left" := VNum Num.zero]> d1 else d1).
  assert (exists t, get d2 "top" = VNum t) as [t Ht].
  { subst d2 d1.
    destruct (is_number (get s "top")) eqn:H1; cbn [negb];
      [apply is_number_inv in H1 as [t H1] |];
      (destruct (is_number (get _ "left")); cbn [negb];
       rewrite ?get_insert_ne by done; rewrite ?get_insert; eauto). }
  assert (exists l, get d2 "left" = VNum l) as [l Hl].
  { subst d2. destruct (is_number (get d1 "left")) eqn:H1; cbn [negb].
    - by apply is_number_inv in H1.
    - rewrite get_insert. eauto. }
  destruct (negb (is_number (get d2 "right")) && is_number (get d2 "width")) eqn:Hr.
  - apply andb_true_iff in Hr as [_ [w Hw]%is_number_inv].
    rewrite Hl, Hw, add_numbers, !bind_Ok.
    rewrite !get_insert_ne by done.
    destruct (negb (is_number (get d2 "bottom")) && is_number (get d2 "height")) eqn:Hb;
      [| reflexivity].
    apply andb_true_iff in Hb as [_ [h Hh]%is_number_inv].
    by rewrite Ht, Hh, add_numbers, !bind_Ok.
  - rewrite !bind_Ok.
    destruct (negb (is_number (get d2 "bottom")) && is_number (get d2 "height")) eqn:Hb;
      [| reflexivity].
    apply andb_true_iff in Hb as [_ [h Hh]%is_number_inv].
    by rewrite Ht, Hh, add_numbers, !bind_Ok.
Qed.

(** The embedding of [placement] returns [placement_value], whatever the
    place. *)
Lemma placement_returns (win : window) (place : value) (tooltip origin : element) :
  placement win place tooltip origin = Ok (placement_value win place tooltip origin).
Proof.
  unfold placement, placement_value.
  destruct (str_is place "top"), (str_is place "bottom"),
           (str_is place "left"), (str_is place "right"); reflexivity.
Qed.

End ReturnFacts.

(** ** Properties of the design document *)

(** *** Rectangle geometry *)

(** C6. A rectangle with numeric [left], [width], [top] and [height] and
    without [right] and [bottom] is amended with [right = left + width] and
    [bottom = top + height]; a [top] or [left] that is not a number after
    stripping becomes 0; [width] and [height] are those of [strip], present
    exactly when the rectangle has them: they are never derived from the
    other four properties. [amend] returns on every rectangle. *)
Theorem amend_derives_right_bottom :
  (forall (r : object) (l w t h : number),
      r !! "left" = Some (VNum l) -> r !! "width" = Some (VNum w) ->
      r !! "top" = Some (VNum t) -> r !! "height" = Some (VNum h) ->
      r !! "right" = None -> r !! "bottom" = None ->
      exists a : object,
        amend r = Ok a
        /\ get a "right" = VNum (Num.add l w)
        /\ get a "bottom" = VNum (Num.add t h))
  /\ (forall r : object,
        is_number (get (strip r) "top") = false ->
        exists a : object, amend r = Ok a /\ get a "top" = VNum Num.zero)
  /\ (forall r : object,
        is_number (get (strip r) "left") = false ->
        exists a : object, amend r = Ok a /\ get a "left" = VNum Num.zero)
  /\ (forall r : object,
        exists a : object,
          amend r = Ok a
          /\ a !! "width" = strip_value <$> r !! "width"
          /\ a !! "height" = strip_value <$> r !! "height").
Proof.
  split; [| split; [| split]].
  - intros r l w t h Hl Hw Ht Hh Hr Hb.
    exists (amend_value r). split; [apply amend_returns |]. split.
    + rewrite amend_right. unfold num. rewrite amend_left, !strip_get; simpl.
      rewrite (get_lookup _ _ _ Hl), (get_lookup _ _ _ Hw), (get_absent _ _ Hr). reflexivity.
    + rewrite amend_bottom. unfold num. rewrite amend_top, !strip_get; simpl.
      rewrite (get_lookup _ _ _ Ht), (get_lookup _ _ _ Hh), (get_absent _ _ Hb). reflexivity.
  - intros r Hr. exists (amend_value r). split; [apply amend_returns |].
    by rewrite amend_top, Hr.
  - intros r Hr. exists (amend_value r). split; [apply amend_returns |].
    by rewrite amend_left, Hr.
  - intros r. exists (amend_value r). split; [apply amend_returns |]. split.
    + rewrite amend_lookup_other, strip_lookup; [done |].
      repeat (apply not_elem_of_cons; split; [done |]). apply not_elem_of_nil.
    + rewrite amend_lookup_other, strip_lookup; [done |].
      repeat (apply not_elem_of_cons; split; [done |]). apply not_elem_of_nil.
Qed.

Lemma amend_derives_right_bottom_witness :
  let r : object := {[ "left" := VNum (Num.of_Z 10); "width" := VNum (Num.of_Z 30);
                       "top" := VNum (Num.of_Z 5); "height" := VNum (Num.of_Z 20) ]} in
  exists a : object,
    amend r = Ok a
    /\ get a "right" = VNum (Num.of_Z 40) /\ get a "bottom" = VNum (Num.of_Z 25).
Proof.
  intros r.
  exact (proj1 amend_derives_right_bottom r (Num.of_Z 10) (Num.of_Z 30) (Num.of_Z 5)
           (Num.of_Z 20) eq_refl eq_refl eq_refl eq_refl eq_refl eq_refl).
Defined.

(** C10, amended. A [top] (or [left]) that is a string in which, its
    first [px] removed, [parseFloat] reads no number becomes NaN under
    [strip]; NaN is a number for [amend], which keeps it instead of the
    default 0, and the [bottom] (or [right]) derived from it is NaN
    too. *)
Theorem amend_nan_propagates (r : object) (s : string) :
  Str.parseFloat (Str.replace "px" EmptyString s) = Num.nan ->
  (r !! "top" = Some (VStr s) ->
     get (strip r) "top" = VNum Num.nan
     /\ exists a : object,
          amend r = Ok a
          /\ get a "top" = VNum Num.nan
          /\ (is_number (get (strip r) "bottom") = false ->
              is_number (get (strip r) "height") = true ->
              get a "bottom" = VNum Num.nan))
  /\ (r !! "left" = Some (VStr s) ->
        get (strip r) "left" = VNum Num.nan
        /\ exists a : object,
             amend r = Ok a
             /\ get a "left" = VNum Num.nan
             /\ (is_number (get (strip r) "right") = false ->
                 is_number (get (strip r) "width") = true ->
                 get a "right" = VNum Num.nan)).
Proof.
  intros Hnan. split; intros Hr.
  - assert (get (strip r) "top" = VNum Num.nan) as Hs.
    { rewrite strip_get, (get_lookup _ _ _ Hr); simpl. by rewrite Hnan. }
    assert (get (amend_value r) "top" = VNum Num.nan) as Ha by (by rewrite amend_top, Hs).
    split; [done |]. exists (amend_value r).
    split; [apply amend_returns | split; [done |]].
    intros Hb Hh. rewrite amend_bottom, Hb, Hh. unfold num. rewrite Ha.
    cbn [negb andb number_of]. by rewrite NumFacts.add_nan_l.
  - assert (get (strip r) "left" = VNum Num.nan) as Hs.
    { rewrite strip_get, (get_lookup _ _ _ Hr); simpl. by rewrite Hnan. }
    assert (get (amend_value r) "left" = VNum Num.nan) as Ha by (by rewrite amend_left, Hs).
    split; [done |]. exists (amend_value r).
    split; [apply amend_returns | split; [done |]].
    intros Hb Hh. rewrite amend_right, Hb, Hh. unfold num. rewrite Ha.
    cbn [negb andb number_of]. by rewrite NumFacts.add_nan_l.
Qed.

Lemma amend_nan_propagates_witness :
  let r : object := {[ "top" := VStr "auto"; "height" := VNum (Num.of_Z 10) ]} in
  Str.parseFloat (Str.replace "px" EmptyString "auto") = Num.nan
  /\ get (strip r) "top" = VNum Num.nan
  /\ exists a : object,
       amend r = Ok a /\ get a "top" = VNum Num.nan /\ get a "bottom" = VNum Num.nan.
Proof.
  intros r.
  assert (Str.parseFloat (Str.replace "px" EmptyString "auto") = Num.nan) as Hnan
    by reflexivity.
  destruct (amend_nan_propagates r "auto" Hnan) as [Htop _].
  destruct (Htop eq_refl) as (Hs & a & Hret & Ha & Hb).
  split; [exact Hnan | split; [exact Hs |]].
  exists a. split; [exact Hret | split; [exact Ha |]].
  apply Hb; reflexivity.
Defined.

(** C10 as stated fails on ["px5"]: the string does not parse to a number
    ([parseFloat] and [Number] both give NaN), yet [strip] takes the [px]
    out first and leaves 5, and the [bottom] derived from it is 15. *)
Lemma amend_px5_not_nan :
  let r : object := {[ "top" := VStr "px5"; "height" := VNum (Num.of_Z 10) ]} in
  Str.parseFloat "px5" = Num.nan
  /\ Str.to_number "px5" = Num.nan
  /\ get (strip r) "top" = VNum (Num.of_Z 5)
  /\ get (strip r) "top" <> VNum Num.nan
  /\ exists a : object,
       amend r = Ok a
       /\ get a "top" = VNum (Num.of_Z 5) /\ get a "bottom" = VNum (Num.of_Z 15)
       /\ get a "bottom" <> VNum Num.nan.
Proof.
  intros r.
  split; [vm_compute; reflexivity |]. split; [vm_compute; reflexivity |].
  split; [vm_compute; reflexivity |]. split; [vm_compute; discriminate |].
  exists (amend_value r). split; [apply amend_returns |].
  split; [vm_compute; reflexivity |]. split; [vm_compute; reflexivity |].
  vm_compute. discriminate.
Qed.

Section IntersectionFacts.

Lemma max_numbers (x y : number) : max (VNum x) (VNum y) = Ok (VNum (Num.max x y)).
Proof. reflexivity. Qed.

Lemma min_numbers (x y : number) : min (VNum x) (VNum y) = Ok (VNum (Num.min x y)).
Proof. reflexivity. Qed.

Lemma sub_numbers (x y : number) : sub (VNum x) (VNum y) = Ok (VNum (Num.sub x y)).
Proof. reflexivity. Qed.

(** The intersection of two rectangles whose [top], [left], [width] and
    [height] are numbers. *)
Lemma intersection_numbers (a b : object) (ta la wa ha tb lb wb hb : number) :
  get a "top" = VNum ta -> get a "left" = VNum la ->
  get a "width" = VNum wa -> get a "height" = VNum ha ->
  get b "top" = VNum tb -> get b "left" = VNum lb ->
  get b "width" = VNum wb -> get b "height" = VNum hb ->
  let top := Num.max ta tb in
  let right := Num.min (Num.add la wa) (Num.add lb wb) in
  let bottom := Num.min (Num.add ta ha) (Num.add tb hb) in
  let left := Num.max la lb in
  intersection a b
  = Ok (<["width" := VNum (Num.sub right left)]>
          (<["height" := VNum (Num.sub bottom top)]>
             (<["left" := VNum left]>
                (<["bottom" := VNum bottom]>
                   (<["right" := VNum right]> (<["top" := VNum top]> ∅)))))).
Proof.
  intros Hta Hla Hwa Hha Htb Hlb Hwb Hhb top right bottom left.
  unfold intersection. rewrite Hta, Hla, Hwa, Hha, Htb, Hlb, Hwb, Hhb.
  rewrite !max_numbers, !add_numbers, !bind_Ok, !min_numbers, !bind_Ok. cbv zeta.
  repeat first [rewrite get_insert | rewrite get_insert_ne by done
                | rewrite sub_numbers | rewrite bind_Ok].
  reflexivity.
Qed.

End IntersectionFacts.

(** C7. The intersection of two fully specified rectangles has the larger
    [top] and [left], the smaller [right] and [bottom], and their
    differences as [width] and [height], negative when the rectangles do
    not meet; the intersection does not depend on the order of the two
    rectangles. *)
Theorem intersection_spec :
  (forall a b : object, full_rect a -> full_rect b ->
     exists i : object,
       intersection a b = Ok i
       /\ get i "top" = VNum (Num.max (num a "top") (num b "top"))
       /\ get i "left" = VNum (Num.max (num a "left") (num b "left"))
       /\ get i "right" = VNum (Num.min (num a "right") (num b "right"))
       /\ get i "bottom" = VNum (Num.min (num a "bottom") (num b "bottom"))
       /\ get i "width" = VNum (Num.sub (num i "right") (num i "left"))
       /\ get i "height" = VNum (Num.sub (num i "bottom") (num i "top"))
       /\ intersection b a = Ok i)
  /\ (exists i : object,
        intersection (Examples.rect 0 0 10 10) (Examples.rect 20 20 10 10) = Ok i
        /\ get i "width" = VNum (Num.of_Z (-10)) /\ get i "height" = VNum (Num.of_Z (-10))).
Proof.
  split.
  - intros a b (ta & la & wa & ha & Hta & Hla & Hwa & Hha & Hra & Hba)
               (tb & lb & wb & hb & Htb & Hlb & Hwb & Hhb & Hrb & Hbb).
    eexists. split; [exact (intersection_numbers a b _ _ _ _ _ _ _ _
                              Hta Hla Hwa Hha Htb Hlb Hwb Hhb) |].
    unfold num. rewrite Hta, Htb, Hla, Hlb, Hra, Hrb, Hba, Hbb. cbn [number_of].
    split; [reflexivity |]. split; [reflexivity |]. split; [reflexivity |].
    split; [reflexivity |]. split; [reflexivity |]. split; [reflexivity |].
    rewrite (intersection_numbers b a _ _ _ _ _ _ _ _ Htb Hlb Hwb Hhb Hta Hla Hwa Hha).
    cbv zeta.
    rewrite (NumFacts.max_comm tb ta), (NumFacts.max_comm lb la),
            (NumFacts.min_comm (Num.add lb wb)), (NumFacts.min_comm (Num.add tb hb)).
    reflexivity.
  - eexists.
    split; [exact (intersection_numbers (Examples.rect 0 0 10 10) (Examples.rect 20 20 10 10)
                     _ _ _ _ _ _ _ _ eq_refl eq_refl eq_refl eq_refl
                     eq_refl eq_refl eq_refl eq_refl) |].
    split; vm_compute; reflexivity.
Qed.

Lemma intersection_spec_witness :
  let a := Examples.rect 0 0 10 10 in
  let b := Examples.rect 5 8 10 10 in
  exists i : object,
    intersection a b = Ok i
    /\ get i "top" = VNum (Num.of_Z 5) /\ get i "left" = VNum (Num.of_Z 8)
    /\ get i "right" = VNum (Num.of_Z 10) /\ get i "bottom" = VNum (Num.of_Z 10)
    /\ get i "width" = VNum (Num.of_Z 2) /\ get i "height" = VNum (Num.of_Z 5)
    /\ intersection b a = Ok i.
Proof.
  intros a b.
  assert (full_rect a) as Ha by (do 4 eexists; repeat split).
  assert (full_rect b) as Hb by (do 4 eexists; repeat split).
  destruct (proj1 intersection_spec a b Ha Hb) as (i & Hi & H).
  exists i. split; [exact Hi |].
  injection Hi as <-. exact H.
Defined.


(** *** Overflow detector *)

Section OverDirsFacts.

(** The viewport, amended. *)
Lemma amend_defaultArea (win : window) :
  let area := amend_value (defaultArea win) in
  get area "top" = VNum Num.zero /\ get area "left" = VNum Num.zero
  /\ get area "width" = VNum (Num.of_Z (innerWidth win))
  /\ get area "height" = VNum (Num.of_Z (innerHeight win))
  /\ get area "right" = VNum (Num.of_Z (innerWidth win))
  /\ get area "bottom" = VNum (Num.of_Z (innerHeight win)).
Proof.
  intros area. split; [reflexivity |]. split; [reflexivity |].
  split; [reflexivity |]. split; [reflexivity |]. split.
  - change (get area "right") with (VNum (Num.add Num.zero (Num.of_Z (innerWidth win)))).
    by rewrite NumFacts.add_zero_of_Z.
  - change (get area "bottom") with (VNum (Num.add Num.zero (Num.of_Z (innerHeight win)))).
    by rewrite NumFacts.add_zero_of_Z.
Qed.

(** The four tests as [overDirs] writes them. *)
Lemma violated_eq (t area : object) :
  (b ← lt (get t "top") (get area "top");
   let dirs := if (b : bool) then [] ++ ["top"] else [] in
   b ← lt (get area "right") (get t "right");
   let dirs := if (b : bool) then dirs ++ ["right"] else dirs in
   b ← lt (get area "bottom") (get t "bottom");
   let dirs := if (b : bool) then dirs ++ ["bottom"] else dirs in
   b ← lt (get t "left") (get area "left");
   let dirs := if (b : bool) then dirs ++ ["left"] else dirs in
   Ok dirs)
  = violated t area.
Proof.
  unfold violated, edges.
  destruct (lt (get t "top") (get area "top")) as [[] |];
    [| | reflexivity];
    (destruct (lt (get area "right") (get t "right")) as [[] |];
     [| | reflexivity];
     (destruct (lt (get area "bottom") (get t "bottom")) as [[] |];
      [| | reflexivity];
      (destruct (lt (get t "left") (get area "left")) as [[] |];
       reflexivity))).
Qed.

(** [overDirs] is the four tests on the amended offset and the area. *)
Lemma overDirs_violated (win : window) (tip : object) (el : option element) :
  overDirs win tip el
  = (area ← match el with
            | Some e => intersection (amend_value (defaultArea win)) (position win e)
            | None => Ok (amend_value (defaultArea win))
            end;
     violated (amend_value tip) area).
Proof.
  unfold overDirs. rewrite !amend_returns, !bind_Ok.
  apply bind_ext. intros area. apply violated_eq.
Qed.

Lemma primitive_to_primitive (v : value) : primitive v = true -> to_primitive v = Ok v.
Proof. by destruct v. Qed.

(** A comparison of two primitive values returns. *)
Lemma lt_primitive (x y : value) :
  primitive x = true -> primitive y = true -> exists b : bool, lt x y = Ok b.
Proof.
  intros Hx Hy. unfold lt.
  rewrite (primitive_to_primitive x Hx), (primitive_to_primitive y Hy), !bind_Ok. eauto.
Qed.

Lemma primitive_strip_value (v : value) : primitive v = true -> primitive (strip_value v) = true.
Proof. by destruct v. Qed.

Lemma is_number_primitive (v : value) : is_number v = true -> primitive v = true.
Proof. by destruct v. Qed.

(** [amend] keeps the six properties primitive. *)
Lemma amend_value_primitive (tip : object) (k : string) :
  k ∈ STRIP_FOR -> primitive (get tip k) = true -> primitive (get (amend_value tip) k) = true.
Proof.
  intros Hk Hp.
  assert (primitive (get (strip tip) k) = true) as Hs.
  { rewrite strip_get, decide_True by done. by apply primitive_strip_value. }
  unfold STRIP_FOR in Hk.
  repeat (apply elem_of_cons in Hk as [-> | Hk]); try (by apply elem_of_nil in Hk).
  - destruct (amend_top_number tip) as [t ->]. reflexivity.
  - destruct (amend_left_number tip) as [t ->]. reflexivity.
  - rewrite amend_right.
    by destruct (negb (is_number (get (strip tip) "right")) && is_number (get (strip tip) "width")).
  - rewrite amend_bottom.
    by destruct (negb (is_number (get (strip tip) "bottom"))
                 && is_number (get (strip tip) "height")).
  - rewrite amend_other; [exact Hs |].
    repeat (apply not_elem_of_cons; split; [discriminate |]). apply not_elem_of_nil.
  - rewrite amend_other; [exact Hs |].
    repeat (apply not_elem_of_cons; split; [discriminate |]). apply not_elem_of_nil.
Qed.

End OverDirsFacts.

(** C3. Without a boundary element [overDirs] compares the amended offset
    with the amended viewport, whose [top] and [left] are 0 and whose
    [right] and [bottom] are the width and the height of the viewport, and
    returns, in the order top, right, bottom, left, the edges whose
    inequality holds, each tested on its own; in a viewport of 1000 by 1000
    an offset with [top = -5] that violates no other edge gives
    [["top"]]. On an offset whose six properties hold neither an array nor
    an object every test returns, and so does [overDirs]. *)
Theorem overDirs_violated_edges :
  (forall (win : window) (tip : object),
     exists t area : object,
       amend tip = Ok t
       /\ amend (defaultArea win) = Ok area
       /\ (get area "top" = VNum Num.zero /\ get area "left" = VNum Num.zero
           /\ get area "right" = VNum (Num.of_Z (innerWidth win))
           /\ get area "bottom" = VNum (Num.of_Z (innerHeight win)))
       /\ overDirs win tip None
          = (top ← lt (get t "top") (get area "top");
             right ← lt (get area "right") (get t "right");
             bottom ← lt (get area "bottom") (get t "bottom");
             left ← lt (get t "left") (get area "left");
             Ok ((if (top : bool) then ["top"] else [])
                 ++ (if (right : bool) then ["right"] else [])
                 ++ (if (bottom : bool) then ["bottom"] else [])
                 ++ (if (left : bool) then ["left"] else [])))
       /\ ((forall k : string, k ∈ STRIP_FOR -> primitive (get tip k) = true) ->
           exists dirs : list string, overDirs win tip None = Ok dirs))
  /\ (forall (win : window) (tip t : object),
        innerWidth win = 1000 -> innerHeight win = 1000 ->
        amend tip = Ok t ->
        get t "top" = VNum (Num.of_Z (-5)) ->
        lt (VNum (Num.of_Z 1000)) (get t "right") = Ok false ->
        lt (VNum (Num.of_Z 1000)) (get t "bottom") = Ok false ->
        lt (get t "left") (VNum Num.zero) = Ok false ->
        overDirs win tip None = Ok ["top"]).
Proof.
  split.
  - intros win tip. exists (amend_value tip), (amend_value (defaultArea win)).
    split; [apply amend_returns |]. split; [apply amend_returns |].
    destruct (amend_defaultArea win) as (Ht & Hl & _ & _ & Hr & Hb).
    split; [by repeat split |].
    split; [by rewrite overDirs_violated, bind_Ok |].
    intros Hprim. rewrite overDirs_violated, bind_Ok. unfold violated.
    rewrite Ht, Hl, Hr, Hb.
    destruct (lt_primitive (get (amend_value tip) "top") (VNum Num.zero)) as [b1 ->];
      [apply amend_value_primitive; [in_list | apply Hprim; in_list] | reflexivity |].
    destruct (lt_primitive (VNum (Num.of_Z (innerWidth win))) (get (amend_value tip) "right"))
      as [b2 ->];
      [reflexivity | apply amend_value_primitive; [in_list | apply Hprim; in_list] |].
    destruct (lt_primitive (VNum (Num.of_Z (innerHeight win))) (get (amend_value tip) "bottom"))
      as [b3 ->];
      [reflexivity | apply amend_value_primitive; [in_list | apply Hprim; in_list] |].
    destruct (lt_primitive (get (amend_value tip) "left") (VNum Num.zero)) as [b4 ->];
      [apply amend_value_primitive; [in_list | apply Hprim; in_list] | reflexivity |].
    rewrite !bind_Ok. eauto.
  - intros win tip t Hw Hh Ha Htop Hright Hbottom Hleft.
    rewrite amend_returns in Ha. apply Ok_inj in Ha. subst t.
    rewrite overDirs_violated, bind_Ok. unfold violated.
    destruct (amend_defaultArea win) as (-> & -> & _ & _ & -> & ->).
    rewrite Hw, Hh, Htop, Hright, Hbottom, Hleft. reflexivity.
Qed.

Lemma overDirs_violated_edges_witness :
  let tip : object :=
    {[ "top" := VStr "-5px"; "left" := VStr "10px";
       "width" := VNum (Num.of_Z 30); "height" := VNum (Num.of_Z 10) ]} in
  overDirs Examples.page tip None = Ok ["top"].
Proof.
  intros tip.
  apply (proj2 overDirs_violated_edges Examples.page tip (amend_value tip));
    first [apply amend_returns | reflexivity].
Defined.


(** *** Direction utilities *)

Section OppositeFacts.

(** An array prints as its elements joined with commas. *)
Lemma to_string_cons (x : value) (l : list value) :
  to_string (VArr (x :: l))
  = (sx ← match x with VUndef | VNull => Ok EmptyString | _ => to_string x end;
     match l with
     | [] => Ok sx
     | _ => r ← to_string (VArr l); Ok (sx +:+ "," +:+ r)
     end).
Proof. reflexivity. Qed.

(** Printing a value returns a string or throws a [TypeError]. *)
Lemma to_string_cases :
  forall v : value, (exists s : string, to_string v = Ok s) \/ to_string v = Throw TypeError.
Proof.
  fix IH 1. intros [| | b | x | s | a | o]; try (left; eexists; reflexivity).
  - induction a as [| x a IHa]; [left; by eexists |].
    rewrite to_string_cons.
    assert ((exists s : string,
               match x with VUndef | VNull => Ok EmptyString | _ => to_string x end = Ok s)
            \/ match x with VUndef | VNull => Ok EmptyString | _ => to_string x end
               = Throw TypeError) as [[sx ->] | ->].
    { pose proof (IH x) as Hx. destruct x; try (left; eexists; reflexivity); exact Hx. }
    + rewrite bind_Ok. destruct a as [| y a]; [left; by eexists |].
      destruct IHa as [[r ->] | ->]; [left; by eexists | by right].
    + by right.
  - cbn [to_string]. destruct (o !! "toString"); [by right | left; by eexists].
Qed.

Lemma lt_zero_length (a : list value) :
  lt (VNum Num.zero) (VNum (Num.of_Z (Z.of_nat (length a))))
  = Ok match a with [] => false | _ => true end.
Proof.
  rewrite lt_numbers. destruct a as [| x a]; [reflexivity |].
  f_equal. apply NumFacts.of_Z_positive. simpl length. lia.
Qed.

(** The switch of [opposite], by cases. *)
Lemma opposite_chain (place dir : value) :
  (if str_is place "top" then Ok (VStr "bottom")
   else if str_is place "bottom" then Ok (VStr "top")
   else if str_is place "right" then Ok (VStr "left")
   else if str_is place "left" then Ok (VStr "right")
   else throw_unknown_direction dir)
  = match opposite_of place with
    | Some o => Ok (VStr o)
    | None => throw_unknown_direction dir
    end.
Proof.
  destruct place; try reflexivity. unfold str_is, opposite_of.
  repeat match goal with |- context [String.eqb ?x ?y] => destruct (String.eqb x y) end;
    reflexivity.
Qed.

(** [opposite] on everything but [null]: the switch applied to the value
    looked at, the error built from the argument. *)
Lemma opposite_switch (dir : value) :
  dir <> VNull ->
  opposite dir = match opposite_of (looked_at dir) with
                 | Some o => Ok (VStr o)
                 | None => throw_unknown_direction dir
                 end.
Proof.
  intros Hnull.
  destruct dir as [| | b | x | s | a | o]; try congruence;
    try match goal with
        | |- opposite ?d = _ =>
            lazymatch d with VArr _ => fail | VObj _ => fail | _ => exact (opposite_chain d d) end
        end.
  - unfold opposite, prop. cbn [typeof String.eqb Ascii.eqb Bool.eqb].
    change (String.eqb "length" "length") with true. cbv iota.
    rewrite bind_Ok. cbn [typeof]. change (String.eqb "number" "number") with true.
    cbv iota. rewrite lt_zero_length, bind_Ok.
    destruct a as [| d rest]; rewrite ?bind_Ok; apply opposite_chain.
  - unfold opposite, prop. cbn [typeof String.eqb Ascii.eqb Bool.eqb].
    rewrite bind_Ok. cbn [looked_at].
    destruct (get o "length") as [| | b | n | s | a | o'];
      cbn [typeof String.eqb Ascii.eqb Bool.eqb];
      rewrite ?lt_numbers, ?bind_Ok;
      try (destruct (Num.ltb Num.zero n); rewrite ?bind_Ok);
      apply opposite_chain.
Qed.

Lemma opposite_of_Some (place : value) (o : string) :
  opposite_of place = Some o ->
  is_direction o = true
  /\ exists d : string, place = VStr d /\ is_direction d = true /\ opposite_of (VStr o) = Some d.
Proof.
  destruct place as [| | | | d | |]; try discriminate. unfold opposite_of at 1.
  destruct (String.eqb d "top") eqn:H1;
    [| destruct (String.eqb d "bottom") eqn:H2;
       [| destruct (String.eqb d "right") eqn:H3;
          [| destruct (String.eqb d "left") eqn:H4; [| discriminate]]]];
    intros [= <-];
    match goal with H : String.eqb d _ = true |- _ => apply String.eqb_eq in H; subst d end;
    (split; [reflexivity | eexists; split; [reflexivity | split; reflexivity]]).
Qed.

Lemma opposite_of_None (v : value) : is_direction_value v = false -> opposite_of v = None.
Proof.
  destruct v as [| | | | d | |]; try reflexivity. cbn [is_direction_value].
  unfold is_direction, directions. cbn [existsb]. intros Hd.
  repeat (apply orb_false_iff in Hd as [? Hd]). unfold opposite_of.
  repeat match goal with H : String.eqb _ _ = false |- _ => rewrite H; clear H end.
  reflexivity.
Qed.

End OppositeFacts.

(** C4. The opposite of the opposite of a direction is the direction,
    with top and bottom, right and left, paired; of a non-empty list only
    the first element counts. *)
Theorem opposite_involutive (d : string) (rest : list value) :
  is_direction d = true ->
  (opposite (VStr d) ≫= opposite) = Ok (VStr d)
  /\ opposite (VArr (VStr d :: rest)) = opposite (VStr d)
  /\ (opposite (VStr "top") = Ok (VStr "bottom") /\ opposite (VStr "bottom") = Ok (VStr "top")
      /\ opposite (VStr "right") = Ok (VStr "left") /\ opposite (VStr "left") = Ok (VStr "right")).
Proof.
  intros Hd. unfold is_direction, directions in Hd. cbn [existsb] in Hd.
  split; [| split; [| repeat split]].
  - repeat (apply orb_true_iff in Hd as [Hd | Hd]); try discriminate;
      apply String.eqb_eq in Hd; subst d; reflexivity.
  - rewrite !opposite_switch by congruence.
    repeat (apply orb_true_iff in Hd as [Hd | Hd]); try discriminate;
      apply String.eqb_eq in Hd; subst d; reflexivity.
Qed.

Lemma opposite_involutive_witness :
  (opposite (VStr "left") ≫= opposite) = Ok (VStr "left")
  /\ opposite (VArr [VStr "left"; VStr "top"]) = opposite (VStr "left").
Proof.
  destruct (opposite_involutive "left" [VStr "top"] eq_refl) as (H1 & H2 & _).
  exact (conj H1 H2).
Defined.

(** C5, amended. On every argument but [null] in which it finds no
    direction (the argument is none of the four, and is no array, nor
    object with a positive [length], whose first element is one of them)
    [opposite] throws: the error whose message quotes the argument when
    the argument can be printed, the [TypeError] of the conversion when
    it cannot, and one of the two is the case. So it throws the error that
    carries the argument on the empty list, on ["diagonal"], on
    [undefined], on numbers and on booleans. ([null] makes it throw a
    [TypeError] before it looks for a direction.) *)
Theorem opposite_unknown_direction (dir : value) :
  dir <> VNull -> is_direction_value (looked_at dir) = false ->
  opposite dir = throw_unknown_direction dir
  /\ (forall s : string,
        to_string dir = Ok s -> opposite dir = Throw (Error (unknown_direction_message s)))
  /\ (to_string dir = Throw TypeError -> opposite dir = Throw TypeError)
  /\ ((exists s : string, to_string dir = Ok s) \/ to_string dir = Throw TypeError)
  /\ (primitive dir = true \/ dir = VArr [] ->
      exists s : string,
        to_string dir = Ok s /\ opposite dir = Throw (Error (unknown_direction_message s))).
Proof.
  intros Hnull Hdir.
  assert (opposite dir = throw_unknown_direction dir) as Hopp.
  { rewrite opposite_switch by done. by rewrite (opposite_of_None _ Hdir). }
  split; [exact Hopp |].
  split; [intros s Hs; rewrite Hopp; unfold throw_unknown_direction; by rewrite Hs |].
  split; [intros Hs; rewrite Hopp; unfold throw_unknown_direction; by rewrite Hs |].
  split; [apply to_string_cases |].
  intros Hp.
  assert (exists s : string, to_string dir = Ok s) as [s Hs].
  { destruct Hp as [Hp | ->]; [| by eexists].
    destruct dir; try discriminate; by eexists. }
  exists s. split; [exact Hs |].
  rewrite Hopp. unfold throw_unknown_direction. by rewrite Hs.
Qed.

Lemma opposite_unknown_direction_witness :
  opposite (VArr []) = Throw (Error (unknown_direction_message EmptyString))
  /\ opposite (VStr "diagonal") = Throw (Error (unknown_direction_message "diagonal"))
  /\ opposite VUndef = Throw (Error (unknown_direction_message "undefined"))
  /\ opposite (VArr [VObj {[ "toString" := VNum (Num.of_Z 5) ]}]) = Throw TypeError.
Proof.
  assert (VArr [] <> VNull) as H1 by discriminate.
  assert (VStr "diagonal" <> VNull) as H2 by discriminate.
  assert (VUndef <> VNull) as H3 by discriminate.
  assert (VArr [VObj {[ "toString" := VNum (Num.of_Z 5) ]}] <> VNull) as H4 by discriminate.
  split; [| split; [| split]].
  - exact (proj1 (proj2 (opposite_unknown_direction (VArr []) H1 eq_refl)) _ eq_refl).
  - exact (proj1 (proj2 (opposite_unknown_direction (VStr "diagonal") H2 eq_refl)) _ eq_refl).
  - exact (proj1 (proj2 (opposite_unknown_direction VUndef H3 eq_refl)) _ eq_refl).
  - exact (proj1 (proj2 (proj2 (opposite_unknown_direction _ H4 eq_refl))) eq_refl).
Defined.

(** C5 as stated fails on [null], which is neither a direction nor a
    list: reading its [length] throws a [TypeError], not the error that
    carries the value. *)
Lemma opposite_null_type_error :
  recognised VNull = false
  /\ opposite VNull = Throw TypeError
  /\ forall message : string, opposite VNull <> Throw (Error message).
Proof. split; [reflexivity |]. split; [reflexivity |]. intros message. discriminate. Qed.


(** *** Placement calculator *)

(** C2, amended. For each of the four directions [placement] returns the
    width and the height of the tooltip and, with a gap of 12 and numbers
    printed as pixel strings: on the cross axis, for top and bottom
    [left = pos.left + pos.width * 0.5 - tip.width * 0.5], for left and
    right [top = pos.top + pos.height * 0.5 - tip.height * 0.5]; on the
    main axis [top = pos.top - tip.height - gap] for top,
    [top = pos.top + pos.height + gap] for bottom,
    [left = pos.right + gap] for right and
    [left = pos.left - tip.width - gap] for left. For an anchor at
    [{top:100, left:100, width:50, height:20}] and a tooltip of size
    [{width:30, height:10}], the direction top gives [left = "110px"]
    (100 + 25 - 15) and [top = "78px"]. *)
Theorem placement_formulas :
  (forall (win : window) (tooltip origin : element) (d : string),
     is_direction d = true ->
     let tip := position win tooltip in
     let pos := position win origin in
     let gap := Num.of_Z 12 in
     exists off : object,
       placement win (VStr d) tooltip origin = Ok off
       /\ get off "width" = VNum (num tip "width")
       /\ get off "height" = VNum (num tip "height")
       /\ (d = "top" \/ d = "bottom" ->
           get off "left"
           = pixels (Num.sub (Num.add (num pos "left") (Num.mul (num pos "width") Num.half))
                             (Num.mul (num tip "width") Num.half)))
       /\ (d = "left" \/ d = "right" ->
           get off "top"
           = pixels (Num.sub (Num.add (num pos "top") (Num.mul (num pos "height") Num.half))
                             (Num.mul (num tip "height") Num.half)))
       /\ (d = "top" ->
           get off "top" = pixels (Num.sub (Num.sub (num pos "top") (num tip "height")) gap))
       /\ (d = "bottom" ->
           get off "top" = pixels (Num.add (Num.add (num pos "top") (num pos "height")) gap))
       /\ (d = "right" ->
           get off "left" = pixels (Num.add (num pos "right") gap))
       /\ (d = "left" ->
           get off "left" = pixels (Num.sub (Num.sub (num pos "left") (num tip "width")) gap)))
  /\ (forall (win : window) (tooltip origin : element),
        let tip := position win tooltip in
        let pos := position win origin in
        num pos "top" = Num.of_Z 100 -> num pos "left" = Num.of_Z 100 ->
        num pos "width" = Num.of_Z 50 -> num pos "height" = Num.of_Z 20 ->
        num tip "width" = Num.of_Z 30 -> num tip "height" = Num.of_Z 10 ->
        exists off : object,
          placement win (VStr "top") tooltip origin = Ok off
          /\ get off "left" = VStr "110px" /\ get off "top" = VStr "78px").
Proof.
  assert (forall (win : window) (tooltip origin : element),
             let tip := position win tooltip in
             let pos := position win origin in
             let off := placement_value win (VStr "top") tooltip origin in
             get off "left"
             = pixels (Num.sub (Num.add (num pos "left") (Num.mul (num pos "width") Num.half))
                               (Num.mul (num tip "width") Num.half))
             /\ get off "top"
                = pixels (Num.sub (Num.sub (num pos "top") (num tip "height")) (Num.of_Z 12)))
    as Htop by (intros; split; reflexivity).
  split.
  - intros win tooltip origin d Hd tip pos gap.
    exists (placement_value win (VStr d) tooltip origin).
    split; [apply placement_returns |].
    unfold is_direction, directions in Hd. cbn [existsb] in Hd.
    repeat (apply orb_true_iff in Hd as [Hd | Hd]); try discriminate;
      apply String.eqb_eq in Hd; subst d;
      (split; [reflexivity |]); (split; [reflexivity |]);
      (split; [intros [H | H]; first [discriminate H | reflexivity] |]);
      (split; [intros [H | H]; first [discriminate H | reflexivity] |]);
      (split; [intros H; first [discriminate H | reflexivity] |]);
      (split; [intros H; first [discriminate H | reflexivity] |]);
      (split; [intros H; first [discriminate H | reflexivity] |]);
      intros H; first [discriminate H | reflexivity].
  - intros win tooltip origin tip pos Ht Hl Hw Hh Htw Hth.
    exists (placement_value win (VStr "top") tooltip origin).
    split; [apply placement_returns |].
    destruct (Htop win tooltip origin) as [Hleft Htop'].
    fold tip pos in Hleft, Htop'.
    rewrite Hleft, Htop', Ht, Hl, Hw, Htw, Hth. split; vm_compute; reflexivity.
Qed.

Lemma placement_formulas_witness :
  exists off : object,
    placement Examples.page (VStr "top") Examples.tooltip Examples.anchor = Ok off
    /\ get off "left" = VStr "110px" /\ get off "top" = VStr "78px".
Proof.
  apply (proj2 placement_formulas Examples.page Examples.tooltip Examples.anchor);
    vm_compute; reflexivity.
Defined.

(** C2 as stated fails on its example: with the anchor at
    [{top:100, left:100, width:50, height:20}] and the tooltip of size
    [{width:30, height:10}], [left] is ["110px"], not ["105px"]. *)
Lemma placement_top_left_not_105px :
  let tip := position Examples.page Examples.tooltip in
  let pos := position Examples.page Examples.anchor in
  (num pos "top" = Num.of_Z 100 /\ num pos "left" = Num.of_Z 100
   /\ num pos "width" = Num.of_Z 50 /\ num pos "height" = Num.of_Z 20
   /\ num tip "width" = Num.of_Z 30 /\ num tip "height" = Num.of_Z 10)
  /\ exists off : object,
       placement Examples.page (VStr "top") Examples.tooltip Examples.anchor = Ok off
       /\ get off "left" = VStr "110px"
       /\ get off "left" <> VStr "105px".
Proof.
  intros tip pos. split; [vm_compute; repeat split |].
  exists (placement_value Examples.page (VStr "top") Examples.tooltip Examples.anchor).
  split; [apply placement_returns |].
  vm_compute. split; [reflexivity | discriminate].
Qed.

(** *** Name resolution *)

(** C8, amended. [resolve] returns [payload.name] when that field is
    truthy, else [name] when it is truthy, else [["default"]], a string
    wrapped into a list of one element, and never throws; so
    [resolve({name: "x"})] is [["x"]], [resolve({payload: {name: ["a",
    "b"]}})] is [["a", "b"]] and [resolve({})] is [["default"]]. *)
Theorem resolve_truthy_fields :
  (forall obj : value, resolve obj = Ok (resolve_spec obj))
  /\ resolve (VObj {[ "name" := VStr "x" ]}) = Ok (VArr [VStr "x"])
  /\ resolve (VObj {[ "payload" := VObj {[ "name" := VArr [VStr "a"; VStr "b"] ]} ]})
     = Ok (VArr [VStr "a"; VStr "b"])
  /\ resolve (VObj ∅) = Ok (VArr [VStr "default"]).
Proof.
  split; [| repeat split].
  assert (forall names : value,
             (if String.eqb (typeof names) "string" then VArr [names] else names)
             = wrap names) as Hwrap by (by intros []).
  assert (forall p : value, truthy p = true -> prop p "name" = Ok (field p "name")) as Hname.
  { intros [| | b | x | s | a | o] Hp; try discriminate; reflexivity. }
  intros obj. unfold resolve, resolve_spec, and_then.
  destruct (truthy obj) eqn:Hobj.
  - assert (prop obj "payload" = Ok (field obj "payload")) as ->
        by (destruct obj; try discriminate; reflexivity).
    rewrite (Hname obj Hobj).
    cbn [mbind outcome_bind].
    destruct (truthy (field obj "payload")) eqn:Hp.
    + rewrite (Hname _ Hp). cbn [mbind outcome_bind].
      destruct (truthy (field (field obj "payload") "name")) eqn:Hn;
        cbn [mbind outcome_bind]; [by rewrite Hwrap |].
      destruct (truthy (field obj "name")); cbn [mbind outcome_bind];
        by rewrite ?Hwrap.
    + cbn [mbind outcome_bind]. rewrite Hp. cbn [mbind outcome_bind].
      assert (truthy (field (field obj "payload") "name") = false) as ->.
      { destruct (field obj "payload") as [| | | | | |o]; try reflexivity; discriminate. }
      destruct (truthy (field obj "name")); cbn [mbind outcome_bind];
        by rewrite ?Hwrap.
  - cbn [mbind outcome_bind]. rewrite Hobj. cbn [mbind outcome_bind].
    destruct obj as [| | [] | x | [] | |o]; try discriminate; try reflexivity.
    all: destruct x; try discriminate; reflexivity.
Qed.

(** C8 as stated fails when the field is present and falsy: for
    [{name: ""}] the field [name] is there, and [resolve] returns
    [["default"]], not [[""]]. *)
Lemma resolve_empty_name_default :
  let obj := VObj {[ "name" := VStr EmptyString ]} in
  field obj "name" = VStr EmptyString
  /\ resolve obj = Ok (VArr [VStr "default"])
  /\ resolve obj <> Ok (VArr [VStr EmptyString]).
Proof. vm_compute. split; [reflexivity | split; [reflexivity | discriminate]]. Qed.

(** *** Adjustment engine *)

Section AdjustFacts.

Variables (win : window) (tooltip origin : element).

(** The offset of a placement has numbers as [width] and [height], and
    neither [right] nor [bottom]. *)
Lemma placement_value_fields (d : value) :
  let off := placement_value win d tooltip origin in
  is_number (get off "width") = true /\ is_number (get off "height") = true
  /\ get off "right" = VUndef /\ get off "bottom" = VUndef.
Proof.
  unfold placement_value.
  destruct (str_is d "top"), (str_is d "bottom"), (str_is d "left"), (str_is d "right");
    repeat split.
Qed.

(** On the offset of a placement every test of [overDirs] is a comparison
    of two numbers. *)
Lemma overDirs_placement_returns (d : value) :
  exists dirs : list string,
    overDirs win (placement_value win d tooltip origin) None = Ok dirs.
Proof.
  destruct (placement_value_fields d) as (Hw & Hh & Hr & Hb).
  set (off := placement_value win d tooltip origin) in *.
  assert (get (strip off) "width" = get off "width") as Hsw.
  { rewrite strip_get, decide_True by in_list. by destruct (get off "width"). }
  assert (get (strip off) "height" = get off "height") as Hsh.
  { rewrite strip_get, decide_True by in_list. by destruct (get off "height"). }
  assert (get (strip off) "right" = VUndef) as Hsr.
  { rewrite strip_get, decide_True by in_list. by rewrite Hr. }
  assert (get (strip off) "bottom" = VUndef) as Hsb.
  { rewrite strip_get, decide_True by in_list. by rewrite Hb. }
  rewrite overDirs_violated, bind_Ok. unfold violated.
  destruct (amend_defaultArea win) as (-> & -> & _ & _ & -> & ->).
  destruct (amend_top_number off) as [t ->]. destruct (amend_left_number off) as [l ->].
  rewrite amend_right, amend_bottom, Hsr, Hsb, Hsw, Hsh, Hw, Hh.
  cbn [is_number typeof String.eqb Ascii.eqb Bool.eqb negb andb].
  rewrite !lt_numbers, !bind_Ok. eauto.
Qed.

Lemma fits_eq (d : value) (dirs : list string) :
  overDirs win (placement_value win d tooltip origin) None = Ok dirs ->
  fits win tooltip origin d = Nat.eqb (length dirs) 0.
Proof. intros H. unfold fits. by rewrite placement_returns, bind_Ok, H. Qed.

(** The loop stops at the first candidate that fits; when none does it
    returns [first], or the first of [tries] while [first] is undefined. *)
Lemma adjust_loop_find (tries : list value) : forall first : option result,
  adjust_loop win tooltip origin tries first
  = Ok match find (fits win tooltip origin) tries with
       | Some d => Some (placed_value win tooltip origin d)
       | None =>
           match first with
           | Some r => Some r
           | None => placed_value win tooltip origin <$> head tries
           end
       end.
Proof.
  induction tries as [| d tries IH]; intros first.
  - destruct first; reflexivity.
  - cbn [adjust_loop find]. rewrite placement_returns, bind_Ok.
    destruct (overDirs_placement_returns d) as [dirs Hdirs].
    rewrite Hdirs, bind_Ok, (fits_eq d dirs Hdirs).
    destruct (Nat.eqb (length dirs) 0); [reflexivity |].
    rewrite IH. destruct (find (fits win tooltip origin) tries); [reflexivity |].
    destruct first; reflexivity.
Qed.

(** The loop returns the first fit of a list that is not empty. *)
Lemma adjust_loop_first_fit (d0 : value) (tries : list value) :
  exists r : result,
    adjust_loop win tooltip origin (d0 :: tries) None = Ok (Some r)
    /\ placed win tooltip origin (first_fit win tooltip origin (d0 :: tries) d0) r.
Proof.
  rewrite adjust_loop_find. unfold first_fit.
  destruct (find (fits win tooltip origin) (d0 :: tries)) as [d |].
  - exists (placed_value win tooltip origin d). split; [reflexivity |].
    split; [reflexivity | apply placement_returns].
  - exists (placed_value win tooltip origin d0). split; [reflexivity |].
    split; [reflexivity | apply placement_returns].
Qed.

(** A string is split into a new array, which is then treated as an
    array of the caller would be. *)
Lemma adjust_string_auto (σ : store) (s : string) :
  adjust win σ (PStr s) tooltip origin true
  = adjust win (<[fresh (dom σ) := (fun p => VStr (Str.trim p)) <$> Str.split "," s]> σ)
           (PArr (fresh (dom σ))) tooltip origin true.
Proof. reflexivity. Qed.

(** [adjust] on an array of the store. *)
Lemma adjust_array (σ : store) (l : loc) (a : list value) (auto : bool) :
  σ !! l = Some a ->
  adjust win σ (PArr l) tooltip origin auto
  = match a with
    | [d] =>
        match opposite (VArr a) with
        | Ok o => (<[l := [d; o]]> σ, adjust_loop win tooltip origin [d; o] None)
        | Throw e => (σ, Throw e)
        end
    | _ => (σ, adjust_loop win tooltip origin a None)
    end.
Proof.
  intros Hl. unfold adjust. rewrite Hl.
  destruct a as [| d [| d' a]]; reflexivity.
Qed.

Lemma fresh_loc_free (σ : store) : σ !! fresh (dom σ) = None.
Proof. apply not_elem_of_dom, is_fresh. Qed.

End AdjustFacts.

(** C1. [adjust] tries the candidates from left to right, the candidates
    being the trimmed pieces of a string split on commas when [auto] is
    on, or the given list, with the opposite appended to a list of one
    element; it returns the placement and the direction of the first
    candidate whose placement violates no edge of the viewport, and those
    of the first candidate when every one overflows. The placement of a
    candidate and the test of its overflow always return. *)
Theorem adjust_first_fit (win : window) (σ : store) (place : place_arg)
    (tooltip origin : element) (auto : bool) (a cands : list value) (d0 : value) :
  given_list σ place auto = Some a ->
  candidates a cands ->
  head cands = Some d0 ->
  (forall d : value,
      exists (props : object) (dirs : list string),
        placement win d tooltip origin = Ok props /\ overDirs win props None = Ok dirs)
  /\ exists r : result,
       (adjust win σ place tooltip origin auto).2 = Ok (Some r)
       /\ placed win tooltip origin (first_fit win tooltip origin cands d0) r.
Proof.
  intros Hgiven Hcands Hhead. split.
  { intros d. destruct (overDirs_placement_returns win tooltip origin d) as [dirs Hdirs].
    exists (placement_value win d tooltip origin), dirs.
    split; [apply placement_returns | exact Hdirs]. }
  assert (forall (σ' : store) (l : loc), σ' !! l = Some a ->
            exists r : result,
              (adjust win σ' (PArr l) tooltip origin auto).2 = Ok (Some r)
              /\ placed win tooltip origin (first_fit win tooltip origin cands d0) r) as Harr.
  { intros σ' l Hl. rewrite (adjust_array _ _ _ _ _ _ _ Hl).
    destruct a as [| d [| d' a']]; cbn [candidates] in Hcands.
    - subst cands. discriminate Hhead.
    - destruct Hcands as (o & -> & ->). injection Hhead as <-.
      cbn [snd]. apply adjust_loop_first_fit.
    - subst cands. injection Hhead as <-.
      cbn [snd]. apply adjust_loop_first_fit. }
  destruct place as [s | l]; cbn [given_list] in Hgiven.
  - destruct auto; [| discriminate]. injection Hgiven as <-.
    rewrite adjust_string_auto. apply Harr, lookup_insert_eq.
  - by apply Harr.
Qed.

Lemma adjust_first_fit_witness :
  (exists r : result,
     (adjust Examples.page ∅ (PStr "top") Examples.tooltip Examples.high_anchor true).2
     = Ok (Some r)
     /\ placed Examples.page Examples.tooltip Examples.high_anchor (VStr "bottom") r)
  /\ (exists r : result,
        (adjust Examples.page ∅ (PStr "top, left") Examples.tooltip Examples.corner_anchor true).2
        = Ok (Some r)
        /\ placed Examples.page Examples.tooltip Examples.corner_anchor (VStr "top") r).
Proof.
  split.
  - assert (first_fit Examples.page Examples.tooltip Examples.high_anchor
              [VStr "top"; VStr "bottom"] (VStr "top") = VStr "bottom") as Hfit
        by (vm_compute; reflexivity).
    rewrite <- Hfit.
    apply (adjust_first_fit Examples.page ∅ (PStr "top") Examples.tooltip
             Examples.high_anchor true [VStr "top"] [VStr "top"; VStr "bottom"] (VStr "top"));
      [ reflexivity | exists (VStr "bottom"); split; reflexivity | reflexivity ].
  - assert (first_fit Examples.page Examples.tooltip Examples.corner_anchor
              [VStr "top"; VStr "left"] (VStr "top") = VStr "top") as Hfit
        by (vm_compute; reflexivity).
    rewrite <- Hfit.
    apply (adjust_first_fit Examples.page ∅ (PStr "top, left") Examples.tooltip
             Examples.corner_anchor true [VStr "top"; VStr "left"] [VStr "top"; VStr "left"]
             (VStr "top"));
      [ vm_compute; reflexivity | reflexivity | reflexivity ].
Defined.

(** C9. A place list of one element gets the opposite direction pushed
    onto that very array before the loop runs over it, so an array of one
    element supplied by the caller has two elements after the call; an
    array of any other length is left as it was, and the array built from a
    string is a new one, no array of the caller being written. *)
Theorem adjust_pushes_in_place (win : window) (σ : store)
    (tooltip origin : element) (auto : bool) :
  (forall (l : loc) (d o : value),
      σ !! l = Some [d] -> opposite (VArr [d]) = Ok o ->
      adjust win σ (PArr l) tooltip origin auto
      = (<[l := [d; o]]> σ, adjust_loop win tooltip origin [d; o] None))
  /\ (forall (l : loc) (a : list value),
        σ !! l = Some a -> length a <> 1%nat ->
        (adjust win σ (PArr l) tooltip origin auto).1 = σ)
  /\ (forall (s p : string) (o : value),
        Str.split "," s = [p] -> opposite (VArr [VStr (Str.trim p)]) = Ok o ->
        σ !! fresh (dom σ) = None
        /\ adjust win σ (PStr s) tooltip origin true
           = (<[fresh (dom σ) := [VStr (Str.trim p); o]]> σ,
              adjust_loop win tooltip origin [VStr (Str.trim p); o] None)).
Proof.
  split; [| split].
  - intros l d o Hl Ho. by rewrite (adjust_array _ _ _ _ _ _ _ Hl), Ho.
  - intros l a Hl Hlen. rewrite (adjust_array _ _ _ _ _ _ _ Hl).
    by destruct a as [| d [| d' a]].
  - intros s p o Hs Ho. split; [apply fresh_loc_free |].
    rewrite adjust_string_auto, Hs. cbn [fmap list_fmap].
    rewrite (adjust_array _ _ _ _ _ [VStr (Str.trim p)] _ (lookup_insert_eq _ _ _)), Ho.
    by rewrite insert_insert_eq.
Qed.

Lemma adjust_pushes_in_place_witness :
  let σ : store := {[ 1%positive := [VStr "top"]; 2%positive := [VStr "top"; VStr "left"] ]} in
  (adjust Examples.page σ (PArr 1%positive) Examples.tooltip Examples.high_anchor true).1
  !! 1%positive = Some [VStr "top"; VStr "bottom"]
  /\ (adjust Examples.page σ (PArr 2%positive) Examples.tooltip Examples.high_anchor true).1 = σ
  /\ (adjust Examples.page σ (PStr "left") Examples.tooltip Examples.high_anchor true).1
     = <[fresh (dom σ) := [VStr "left"; VStr "right"]]> σ.
Proof.
  intros σ.
  destruct (adjust_pushes_in_place Examples.page σ Examples.tooltip Examples.high_anchor true)
    as (H1 & H2 & H3).
  split; [| split].
  - rewrite (H1 1%positive (VStr "top") (VStr "bottom") eq_refl eq_refl).
    apply lookup_insert_eq.
  - apply (H2 2%positive [VStr "top"; VStr "left"] eq_refl). discriminate.
  - destruct (H3 "left" "left" (VStr "right") eq_refl eq_refl) as [_ ->]. reflexivity.
Defined.

(** ** Further properties of [utils.js] *)

(** *** [strip] and [amend] *)

(** No string is left by [strip] in the six properties. *)
Lemma strip_value_not_string (v : value) (s : string) : strip_value v <> VStr s.
Proof. by destruct v. Qed.

Lemma strip_value_id (v : value) : typeof v <> "string"%string -> strip_value v = v.
Proof. by destruct v. Qed.

(** X1. After [strip] none of the six properties holds a string; a value that
    is not a string, and every property outside the six, is kept as it
    is; no property is added or removed. *)
Theorem strip_leaves_no_string (obj : object) :
  (forall k : string, k ∈ STRIP_FOR -> typeof (get (strip obj) k) <> "string"%string)
  /\ (forall (k : string) (v : value),
        obj !! k = Some v -> typeof v <> "string"%string -> strip obj !! k = Some v)
  /\ (forall k : string, k ∉ STRIP_FOR -> strip obj !! k = obj !! k)
  /\ dom (strip obj) = dom obj.
Proof.
  split; [| split; [| split]].
  - intros k Hk. rewrite strip_get, decide_True by done.
    by destruct (get obj k).
  - intros k v Hv Hty. rewrite strip_lookup, Hv.
    destruct (decide (k ∈ STRIP_FOR)); [| done].
    cbn [fmap option_fmap option_map]. by rewrite strip_value_id.
  - intros k Hk. by rewrite strip_lookup, decide_False.
  - apply set_eq. intros k. rewrite !elem_of_dom, strip_lookup.
    destruct (decide (k ∈ STRIP_FOR)); [| done]. by rewrite fmap_is_Some.
Qed.

Lemma strip_leaves_no_string_witness :
  let obj : object :=
    {[ "top" := VStr "12.5px"; "left" := VUndef; "width" := VNum (Num.of_Z 30);
       "color" := VStr "red" ]} in
  typeof (get (strip obj) "top") <> "string"%string
  /\ strip obj !! "width" = Some (VNum (Num.of_Z 30))
  /\ strip obj !! "color" = Some (VStr "red")
  /\ dom (strip obj) = dom obj.
Proof.
  intros obj. destruct (strip_leaves_no_string obj) as (H1 & H2 & H3 & H4).
  split; [| split; [| split]].
  - apply H1. unfold STRIP_FOR. apply list_elem_of_here.
  - apply H2; [reflexivity | discriminate].
  - rewrite H3; [reflexivity |].
    unfold STRIP_FOR. repeat (apply not_elem_of_cons; split; [discriminate |]).
    apply not_elem_of_nil.
  - exact H4.
Defined.

(** X2. Stripping twice is stripping once. *)
Theorem strip_idempotent (obj : object) : strip (strip obj) = strip obj.
Proof.
  apply map_eq. intros k. rewrite !strip_lookup.
  destruct (decide (k ∈ STRIP_FOR)); [| done].
  destruct (obj !! k) as [v |]; [| done].
  cbn [fmap option_fmap option_map]. by rewrite strip_value_idemp.
Qed.

Lemma is_number_not_string (v : value) : is_number v = true -> typeof v <> "string"%string.
Proof. by destruct v. Qed.

Lemma strip_get_not_string (data : object) (k : string) :
  k ∈ STRIP_FOR -> typeof (get (strip data) k) <> "string"%string.
Proof.
  intros Hk. rewrite strip_get, decide_True by done. by destruct (get data k).
Qed.

Lemma amend_establishes (r : object) : amended (amend_value r).
Proof.
  assert (is_number (get (amend_value r) "top") = true) as Htop
      by (by destruct (amend_top_number r) as [t ->]).
  assert (is_number (get (amend_value r) "left") = true) as Hleft
      by (by destruct (amend_left_number r) as [t ->]).
  assert (get (amend_value r) "width" = get (strip r) "width") as Hw.
  { apply amend_other. repeat (apply not_elem_of_cons; split; [discriminate |]).
    apply not_elem_of_nil. }
  assert (get (amend_value r) "height" = get (strip r) "height") as Hh.
  { apply amend_other. repeat (apply not_elem_of_cons; split; [discriminate |]).
    apply not_elem_of_nil. }
  split; [exact Htop | split; [exact Hleft | split; [| split]]].
  - rewrite amend_right, Hw.
    destruct (is_number (get (strip r) "right")) eqn:Hr; cbn [negb andb]; [congruence |].
    destruct (is_number (get (strip r) "width")) eqn:Hsw; [| done].
    intros Hn. discriminate Hn.
  - rewrite amend_bottom, Hh.
    destruct (is_number (get (strip r) "bottom")) eqn:Hr; cbn [negb andb]; [congruence |].
    destruct (is_number (get (strip r) "height")) eqn:Hsh; [| done].
    intros Hn. discriminate Hn.
  - intros k Hk. unfold STRIP_FOR in Hk.
    repeat (apply elem_of_cons in Hk as [-> | Hk]); try (by apply elem_of_nil in Hk).
    + by apply is_number_not_string.
    + by apply is_number_not_string.
    + rewrite amend_right.
      destruct (negb (is_number (get (strip r) "right")) && is_number (get (strip r) "width"))
        eqn:Hc.
      * discriminate.
      * apply strip_get_not_string. in_list.
    + rewrite amend_bottom.
      destruct (negb (is_number (get (strip r) "bottom")) && is_number (get (strip r) "height"))
        eqn:Hc.
      * discriminate.
      * apply strip_get_not_string. in_list.
    + rewrite Hw. apply strip_get_not_string. in_list.
    + rewrite Hh. apply strip_get_not_string. in_list.
Qed.

(** X3. [amend] returns on every rectangle, and what it returns is
    amended: [top] and [left] are numbers, no string is left in the six
    properties, and [right] ([bottom]) is a number as soon as [width]
    ([height]) is one. *)
Theorem amend_result_amended (r : object) :
  exists a : object, amend r = Ok a /\ amended a.
Proof. exists (amend_value r). split; [apply amend_returns | apply amend_establishes]. Qed.

(** [amend] changes nothing in a rectangle that is amended. *)
Lemma amend_amended (a : object) : amended a -> amend_value a = a.
Proof.
  intros (Htop & Hleft & Hright & Hbottom & Hstr).
  assert (strip a = a) as Hs.
  { apply map_eq. intros k. rewrite strip_lookup.
    destruct (decide (k ∈ STRIP_FOR)) as [Hk | Hk]; [| done].
    specialize (Hstr k Hk). unfold get in Hstr.
    destruct (a !! k) as [v |]; [| done].
    cbn [fmap option_fmap option_map]. by rewrite strip_value_id. }
  unfold amend_value. rewrite Hs, Htop. cbn [negb]. rewrite Hleft. cbn [negb].
  destruct (is_number (get a "right")) eqn:Hr; cbn [negb andb].
  - destruct (is_number (get a "bottom")) eqn:Hb; cbn [negb andb]; [done |].
    by rewrite (Hbottom eq_refl).
  - rewrite (Hright eq_refl).
    destruct (is_number (get a "bottom")) eqn:Hb; cbn [negb andb]; [done |].
    by rewrite (Hbottom eq_refl).
Qed.

(** X4. Amending twice is amending once. *)
Theorem amend_idempotent (r : object) : (amend r ≫= amend) = amend r.
Proof.
  rewrite (amend_returns r), bind_Ok, amend_returns.
  by rewrite (amend_amended _ (amend_establishes r)).
Qed.

(** *** [position], [placement] and [opposite] *)

Lemma add_zero_r (x : number) : x <> S754_zero true -> Num.add x Num.zero = x.
Proof. destruct x as [[] | [] | |]; try reflexivity. congruence. Qed.

(** X5. On a page that is not scrolled and has no border, [position] is the
    bounding box of the element. *)
Theorem position_unscrolled (win : window) (el : element) :
  Num.truthy (pageYOffset win) = false -> scrollTop win = Num.zero -> clientTop win = 0 ->
  Num.truthy (pageXOffset win) = false -> scrollLeft win = Num.zero -> clientLeft win = 0 ->
  no_negative_zero (getBoundingClientRect el) ->
  position win el = rect_object (getBoundingClientRect el).
Proof.
  intros Hy Hst Hct Hx Hsl Hcl (Ht & Hl & Hr & Hb).
  unfold position, rect_object. rewrite Hy, Hst, Hct, Hx, Hsl, Hcl.
  change (Num.sub Num.zero (Num.of_Z 0)) with Num.zero.
  by rewrite !add_zero_r.
Qed.

Lemma position_unscrolled_witness :
  position Examples.page Examples.anchor
  = rect_object (getBoundingClientRect Examples.anchor).
Proof.
  apply position_unscrolled; try reflexivity.
  repeat split; discriminate.
Defined.

Lemma placement_no_direction (win : window) (place : value)
    (tooltip origin : element) :
  is_direction_value place = false ->
  placement_value win place tooltip origin
  = {[ "width" := VNum (rect_width (getBoundingClientRect tooltip));
       "height" := VNum (rect_height (getBoundingClientRect tooltip)) ]}.
Proof.
  intros Hp.
  assert (str_is place "top" = false /\ str_is place "right" = false
          /\ str_is place "bottom" = false /\ str_is place "left" = false)
    as (Ht & Hr & Hb & Hl).
  { destruct place as [| | | | d | |]; try (repeat split; reflexivity).
    cbn [is_direction_value] in Hp. unfold is_direction, directions in Hp.
    cbn [existsb] in Hp. repeat (apply orb_false_iff in Hp as [? Hp]).
    by repeat split. }
  unfold placement_value. rewrite Ht, Hr, Hb, Hl. reflexivity.
Qed.

(** X6. A place that is none of the four directions leaves both axes unset:
    [placement] returns the width and the height of the tooltip and
    nothing else. *)
Theorem placement_unknown_direction (win : window) (place : value)
    (tooltip origin : element) :
  is_direction_value place = false ->
  placement win place tooltip origin
  = Ok {[ "width" := VNum (rect_width (getBoundingClientRect tooltip));
          "height" := VNum (rect_height (getBoundingClientRect tooltip)) ]}.
Proof. intros Hp. by rewrite placement_returns, placement_no_direction. Qed.

Lemma placement_unknown_direction_witness :
  placement Examples.page (VStr "center") Examples.tooltip Examples.anchor
  = Ok {[ "width" := VNum (Num.of_Z 30); "height" := VNum (Num.of_Z 10) ]}.
Proof. exact (placement_unknown_direction _ (VStr "center") _ _ eq_refl). Defined.

(** X7. For each of the four directions the offset has the properties
    [width], [height], [left] and [top] and no other: [right] and [bottom]
    are never set. *)
Theorem placement_keys (win : window) (d : string) (tooltip origin : element) :
  is_direction d = true ->
  exists off : object,
    placement win (VStr d) tooltip origin = Ok off
    /\ dom off = ({[ "width"; "height"; "left"; "top" ]} : gset string).
Proof.
  intros Hd. exists (placement_value win (VStr d) tooltip origin).
  split; [apply placement_returns |].
  unfold is_direction, directions in Hd. cbn [existsb] in Hd.
  repeat (apply orb_true_iff in Hd as [Hd | Hd]); try discriminate;
    apply String.eqb_eq in Hd; subst d; unfold placement_value;
    cbn [str_is String.eqb Ascii.eqb Bool.eqb orb];
    rewrite !dom_insert_L, dom_singleton_L; set_solver.
Qed.

Lemma placement_keys_witness :
  exists off : object,
    placement Examples.page (VStr "right") Examples.tooltip Examples.anchor = Ok off
    /\ dom off = ({[ "width"; "height"; "left"; "top" ]} : gset string).
Proof. exact (placement_keys Examples.page "right" Examples.tooltip Examples.anchor eq_refl). Defined.

(** The statement that throws does not return. *)
Lemma throw_unknown_direction_Ok {A : Type} (dir : value) (v : A) :
  throw_unknown_direction dir = Ok v -> False.
Proof.
  unfold throw_unknown_direction. destruct (to_string dir); cbn [mbind outcome_bind]; discriminate.
Qed.

(** X8. When [opposite] returns, it returns one of the four directions; on a
    string or an array, the opposite of what it returns is the direction it
    was given (the first element of the array). *)
Theorem opposite_returns_direction (dir v : value) :
  opposite dir = Ok v ->
  is_direction_value v = true
  /\ (string_or_array dir = true -> opposite v = Ok (looked_at dir)).
Proof.
  intros Hopp.
  assert (dir <> VNull) as Hnull by (intros ->; discriminate Hopp).
  revert Hopp.
  assert (forall place dir' : value,
             match opposite_of place with
             | Some o => Ok (VStr o)
             | None => throw_unknown_direction dir'
             end = Ok v ->
             is_direction_value v = true /\ opposite v = Ok place) as Hres.
  { intros place dir' H. destruct (opposite_of place) as [o |] eqn:Ho.
    - apply Ok_inj in H. subst v.
      destruct (opposite_of_Some _ _ Ho) as (Hd & d & -> & _ & Hback).
      split; [exact Hd |]. rewrite opposite_switch by congruence.
      cbn [looked_at]. by rewrite Hback.
    - by apply throw_unknown_direction_Ok in H. }
  rewrite opposite_switch by exact Hnull. intros H.
  destruct (Hres (looked_at dir) dir H) as [H1 H2].
  split; [exact H1 | intros _; exact H2].
Qed.

Lemma opposite_returns_direction_witness :
  is_direction_value (VStr "left") = true
  /\ opposite (VStr "left") = Ok (VStr "right").
Proof.
  destruct (opposite_returns_direction (VArr [VStr "right"; VStr "top"]) (VStr "left") eq_refl)
    as [H1 H2].
  exact (conj H1 (H2 eq_refl)).
Defined.


(** *** [intersection] and [overDirs] *)

Section PrimitiveFacts.

Lemma to_number_primitive (v : value) :
  primitive v = true -> to_number v = Ok (number_of v).
Proof. intros Hv. unfold to_number. by rewrite primitive_to_primitive. Qed.

(** The sum of two primitive values is a primitive value. *)
Lemma add_primitive (x y : value) :
  primitive x = true -> primitive y = true ->
  exists z : value, add x y = Ok z /\ primitive z = true.
Proof.
  intros Hx Hy. unfold add.
  rewrite (primitive_to_primitive x Hx), (primitive_to_primitive y Hy), !bind_Ok.
  destruct x; try discriminate Hx; destruct y; try discriminate Hy; by eexists.
Qed.

Lemma max_primitive (x y : value) :
  primitive x = true -> primitive y = true ->
  max x y = Ok (VNum (Num.max (number_of x) (number_of y))).
Proof. intros Hx Hy. unfold max. by rewrite !to_number_primitive. Qed.

Lemma min_primitive (x y : value) :
  primitive x = true -> primitive y = true ->
  min x y = Ok (VNum (Num.min (number_of x) (number_of y))).
Proof. intros Hx Hy. unfold min. by rewrite !to_number_primitive. Qed.

(** An operand that cannot be converted makes the operator throw. *)
Lemma to_primitive_own_toString (o : object) (v : value) :
  o !! "toString" = Some v -> to_primitive (VObj o) = Throw TypeError.
Proof. intros Ho. unfold to_primitive. cbn [to_string]. by rewrite Ho. Qed.

(** The intersection of two rectangles whose [top], [left], [width] and
    [height] are primitive values. *)
Lemma intersection_primitive (a b : object) :
  (forall k : string, k ∈ ["top"; "left"; "width"; "height"] ->
     primitive (get a k) = true /\ primitive (get b k) = true) ->
  exists ra rb ba bb : value,
    add (get a "left") (get a "width") = Ok ra
    /\ add (get b "left") (get b "width") = Ok rb
    /\ add (get a "top") (get a "height") = Ok ba
    /\ add (get b "top") (get b "height") = Ok bb
    /\ let top := Num.max (num a "top") (num b "top") in
       let right := Num.min (number_of ra) (number_of rb) in
       let bottom := Num.min (number_of ba) (number_of bb) in
       let left := Num.max (num a "left") (num b "left") in
       intersection a b
       = Ok {[ "width" := VNum (Num.sub right left); "height" := VNum (Num.sub bottom top);
               "left" := VNum left; "bottom" := VNum bottom; "right" := VNum right;
               "top" := VNum top ]}.
Proof.
  intros Hprim.
  destruct (Hprim "top") as [Hta Htb]; [repeat first [apply list_elem_of_here | apply list_elem_of_further] |].
  destruct (Hprim "left") as [Hla Hlb]; [repeat first [apply list_elem_of_here | apply list_elem_of_further] |].
  destruct (Hprim "width") as [Hwa Hwb]; [repeat first [apply list_elem_of_here | apply list_elem_of_further] |].
  destruct (Hprim "height") as [Hha Hhb]; [repeat first [apply list_elem_of_here | apply list_elem_of_further] |].
  destruct (add_primitive _ _ Hla Hwa) as (ra & Hra & Hpra).
  destruct (add_primitive _ _ Hlb Hwb) as (rb & Hrb & Hprb).
  destruct (add_primitive _ _ Hta Hha) as (ba & Hba & Hpba).
  destruct (add_primitive _ _ Htb Hhb) as (bb & Hbb & Hpbb).
  exists ra, rb, ba, bb.
  split; [exact Hra |]. split; [exact Hrb |]. split; [exact Hba |]. split; [exact Hbb |].
  intros top right bottom left. unfold intersection.
  rewrite Hra, Hrb, Hba, Hbb.
  rewrite (max_primitive _ _ Hta Htb), !bind_Ok.
  rewrite (min_primitive _ _ Hpra Hprb), !bind_Ok.
  rewrite (min_primitive _ _ Hpba Hpbb), !bind_Ok.
  rewrite (max_primitive _ _ Hla Hlb), !bind_Ok.
  cbv zeta.
  repeat first [rewrite get_insert | rewrite get_insert_ne by done
                | rewrite sub_numbers | rewrite bind_Ok].
  by rewrite insert_empty.
Qed.

End PrimitiveFacts.

(** X9. On two rectangles whose [top], [left], [width] and [height] hold
    neither an array nor an object [intersection] returns the six
    properties and numbers in all of them, [height] and [width] being
    [bottom - top] and [right - left]; a rectangle without [width] then
    gives NaN for [right] and [width]. A [top] that is an object with a
    property [toString] of its own makes it throw a [TypeError]. *)
Theorem intersection_numeric (a b : object) :
  ((forall k : string, k ∈ ["top"; "left"; "width"; "height"] ->
      primitive (get a k) = true /\ primitive (get b k) = true) ->
   (exists t r b' l : number,
       intersection a b
       = Ok {[ "width" := VNum (Num.sub r l); "height" := VNum (Num.sub b' t);
               "left" := VNum l; "bottom" := VNum b'; "right" := VNum r; "top" := VNum t ]})
   /\ (forall l : number,
         get a "left" = VNum l -> get a "width" = VUndef ->
         exists i : object,
           intersection a b = Ok i
           /\ get i "right" = VNum Num.nan /\ get i "width" = VNum Num.nan))
  /\ (forall (o : object) (v : value),
        get a "top" = VObj o -> o !! "toString" = Some v ->
        intersection a b = Throw TypeError).
Proof.
  split.
  - intros Hprim.
    destruct (intersection_primitive a b Hprim) as (ra & rb & ba & bb & Hra & Hrb & Hba & Hbb & Hi).
    cbv zeta in Hi. split; [by do 4 eexists |].
    intros l Hl Hw. eexists. split; [exact Hi |].
    rewrite Hl, Hw in Hra. apply Ok_inj in Hra. subst ra.
    repeat first [rewrite get_insert | rewrite get_insert_ne by done].
    change (number_of (VNum (Num.add (number_of (VNum l)) (number_of VUndef))))
      with (Num.add l Num.nan).
    rewrite NumFacts.add_nan_r. split; reflexivity.
  - intros o v Ho Hv. unfold intersection, max, to_number.
    by rewrite Ho, (to_primitive_own_toString o v Hv).
Qed.

Lemma intersection_numeric_witness :
  let a : object := {[ "top" := VNum (Num.of_Z 0); "left" := VNum (Num.of_Z 0);
                       "height" := VNum (Num.of_Z 10) ]} in
  (exists i : object,
     intersection a (Examples.rect 0 0 10 10) = Ok i
     /\ get i "right" = VNum Num.nan /\ get i "width" = VNum Num.nan)
  /\ intersection {[ "top" := VObj {[ "toString" := VNum (Num.of_Z 5) ]} ]}
       (Examples.rect 0 0 10 10) = Throw TypeError.
Proof.
  intros a. split.
  - apply (proj1 (intersection_numeric a (Examples.rect 0 0 10 10))) with (l := Num.of_Z 0);
      [| reflexivity | reflexivity].
    intros k Hk. repeat (apply elem_of_cons in Hk as [-> | Hk]); try (by apply elem_of_nil in Hk);
      split; reflexivity.
  - exact (proj2 (intersection_numeric
                    ({[ "top" := VObj {[ "toString" := VNum (Num.of_Z 5) ]} ]} : object)
                    (Examples.rect 0 0 10 10))
             {[ "toString" := VNum (Num.of_Z 5) ]} (VNum (Num.of_Z 5)) eq_refl eq_refl).
Defined.

(** The viewport cut down to an element. *)
Lemma intersection_viewport (win : window) (el : element) :
  let p := position win el in
  let top := Num.max Num.zero (num p "top") in
  let right := Num.min (Num.of_Z (innerWidth win)) (Num.add (num p "left") (num p "width")) in
  let bottom := Num.min (Num.of_Z (innerHeight win)) (Num.add (num p "top") (num p "height")) in
  let left := Num.max Num.zero (num p "left") in
  exists area : object,
    intersection (amend_value (defaultArea win)) p = Ok area
    /\ get area "top" = VNum top /\ get area "right" = VNum right
    /\ get area "bottom" = VNum bottom /\ get area "left" = VNum left.
Proof.
  intros p top right bottom left.
  destruct (amend_defaultArea win) as (Ht & Hl & Hw & Hh & _ & _).
  eexists. split.
  - exact (intersection_numbers (amend_value (defaultArea win)) p _ _ _ _
             (num p "top") (num p "left") (num p "width") (num p "height")
             Ht Hl Hw Hh eq_refl eq_refl eq_refl eq_refl).
  - cbv zeta. rewrite !NumFacts.add_zero_of_Z.
    repeat first [rewrite get_insert | rewrite get_insert_ne by done].
    by repeat split.
Qed.

(** X10. With a boundary element the offset is tested against the viewport
    cut down to the element: [top] and [left] against the larger of 0 and
    the element's, [right] and [bottom] against the smaller of the
    viewport's size and the element's [left + width] and [top + height]. *)
Theorem overDirs_boundary_element (win : window) (tip : object) (el : element) :
  let p := position win el in
  let top := Num.max Num.zero (num p "top") in
  let right := Num.min (Num.of_Z (innerWidth win)) (Num.add (num p "left") (num p "width")) in
  let bottom := Num.min (Num.of_Z (innerHeight win)) (Num.add (num p "top") (num p "height")) in
  let left := Num.max Num.zero (num p "left") in
  exists t : object,
    amend tip = Ok t
    /\ overDirs win tip (Some el)
       = (over_top ← lt (get t "top") (VNum top);
          over_right ← lt (VNum right) (get t "right");
          over_bottom ← lt (VNum bottom) (get t "bottom");
          over_left ← lt (get t "left") (VNum left);
          Ok ((if (over_top : bool) then ["top"] else [])
              ++ (if (over_right : bool) then ["right"] else [])
              ++ (if (over_bottom : bool) then ["bottom"] else [])
              ++ (if (over_left : bool) then ["left"] else []))).
Proof.
  intros p top right bottom left.
  exists (amend_value tip). split; [apply amend_returns |].
  rewrite overDirs_violated.
  destruct (intersection_viewport win el) as (area & -> & Ht & Hr & Hb & Hl).
  rewrite bind_Ok. unfold violated. by rewrite Ht, Hr, Hb, Hl.
Qed.

Lemma ltb_nan_r (x : number) : Num.ltb x Num.nan = false.
Proof. by destruct x as [[] | [] | | []]. Qed.

(** X11. An offset whose [top] and [left] are strings in which, their first
    [px] removed, [parseFloat] reads no number, and whose [right] and
    [bottom] are to be derived from its [width] and [height], is never
    reported as overflowing. *)
Theorem overDirs_unparsable_offset (win : window) (tip : object) (s1 s2 : string) :
  tip !! "top" = Some (VStr s1) ->
  Str.parseFloat (Str.replace "px" EmptyString s1) = Num.nan ->
  tip !! "left" = Some (VStr s2) ->
  Str.parseFloat (Str.replace "px" EmptyString s2) = Num.nan ->
  is_number (get (strip tip) "right") = false ->
  is_number (get (strip tip) "bottom") = false ->
  is_number (get (strip tip) "width") = true ->
  is_number (get (strip tip) "height") = true ->
  overDirs win tip None = Ok [].
Proof.
  intros Ht Hnt Hl Hnl Hr Hb Hw Hh.
  assert (get (amend_value tip) "top" = VNum Num.nan) as Htop.
  { rewrite amend_top, strip_get, decide_True by in_list.
    rewrite (get_lookup _ _ _ Ht). cbn [strip_value]. by rewrite Hnt. }
  assert (get (amend_value tip) "left" = VNum Num.nan) as Hleft.
  { rewrite amend_left, strip_get, decide_True by in_list.
    rewrite (get_lookup _ _ _ Hl). cbn [strip_value]. by rewrite Hnl. }
  assert (get (amend_value tip) "right" = VNum Num.nan) as Hright.
  { rewrite amend_right, Hr, Hw. unfold num. rewrite Hleft. cbn [negb andb number_of].
    by rewrite NumFacts.add_nan_l. }
  assert (get (amend_value tip) "bottom" = VNum Num.nan) as Hbottom.
  { rewrite amend_bottom, Hb, Hh. unfold num. rewrite Htop. cbn [negb andb number_of].
    by rewrite NumFacts.add_nan_l. }
  rewrite overDirs_violated, bind_Ok. unfold violated.
  destruct (amend_defaultArea win) as (-> & -> & _ & _ & -> & ->).
  rewrite Htop, Hleft, Hright, Hbottom, !lt_numbers, !bind_Ok, !ltb_nan_r. reflexivity.
Qed.

Lemma overDirs_unparsable_offset_witness :
  overDirs Examples.page
    {[ "top" := VStr "NaNpx"; "left" := VStr "auto";
       "width" := VNum (Num.of_Z 3000); "height" := VNum (Num.of_Z 10) ]} None = Ok [].
Proof.
  apply (overDirs_unparsable_offset _ _ "NaNpx" "auto"); reflexivity.
Defined.


(** *** [adjust] *)

Section AdjustMore.

Variables (win : window) (tooltip origin : element).

Lemma pair_inj {A : Type} (σ1 σ2 : store) (x y : outcome A) :
  (σ1, x) = (σ2, y) -> σ1 = σ2 /\ x = y.
Proof. by intros [= -> ->]. Qed.

Lemma Throw_Ok {A : Type} (e : exn) (y : A) : @Throw A e = Ok y -> False.
Proof. discriminate. Qed.

(** What the loop returns comes from the list it runs over. *)
Lemma adjust_loop_Some (tries : list value) (r : result) :
  adjust_loop win tooltip origin tries None = Ok (Some r) ->
  place r ∈ tries
  /\ placement win (place r) tooltip origin = Ok (offset r)
  /\ (fits win tooltip origin (place r) = true
      \/ (forall d : value, d ∈ tries -> fits win tooltip origin d = false)
         /\ head tries = Some (place r)).
Proof.
  rewrite adjust_loop_find. intros H%Ok_inj. revert H.
  destruct (find (fits win tooltip origin) tries) as [d |] eqn:Hfind.
  - intros [= <-]. apply find_some in Hfind as [Hin Hfits].
    split; [by apply list_elem_of_In |]. split; [apply placement_returns | by left].
  - destruct tries as [| d tries]; [discriminate |]. intros [= <-].
    split; [apply list_elem_of_here |]. split; [apply placement_returns | right].
    split; [| reflexivity].
    intros d' Hd'. apply (find_none _ _ Hfind). by apply list_elem_of_In.
Qed.

Lemma adjust_loop_None (tries : list value) :
  adjust_loop win tooltip origin tries None = Ok None <-> tries = [].
Proof.
  rewrite adjust_loop_find. split.
  - intros H%Ok_inj. revert H.
    destruct (find (fits win tooltip origin) tries); [discriminate |].
    by destruct tries.
  - by intros ->.
Qed.

Lemma chars_single (s x : string) :
  x ∈ Str.chars s -> exists c : ascii, x = String c EmptyString.
Proof.
  induction s as [| c s IH]; cbn [Str.chars]; intros Hx.
  - by apply elem_of_nil in Hx.
  - apply elem_of_cons in Hx as [-> | Hx]; eauto.
Qed.

Lemma single_char_no_direction (c : ascii) : is_direction (String c EmptyString) = false.
Proof.
  unfold is_direction, directions. cbn [existsb String.eqb].
  by repeat match goal with |- context [Ascii.eqb ?x ?y] => destruct (Ascii.eqb x y) end.
Qed.

Lemma fits_overDirs (d : value) :
  fits win tooltip origin d = true ->
  overDirs win (placement_value win d tooltip origin) None = Ok [].
Proof.
  destruct (overDirs_placement_returns win tooltip origin d) as [dirs Hdirs].
  rewrite (fits_eq _ _ _ d dirs Hdirs), Hdirs. intros H%Nat.eqb_eq.
  by rewrite (nil_length_inv _ H).
Qed.

Lemma adjust_loop_result (r : result) (tries : list value) :
  adjust_loop win tooltip origin tries None = Ok (Some r) ->
  place r ∈ tries
  /\ placement win (place r) tooltip origin = Ok (offset r)
  /\ (overDirs win (offset r) None = Ok [] \/ head tries = Some (place r)).
Proof.
  intros H. destruct (adjust_loop_Some _ _ H) as (Hin & Hoff & Hfit).
  split; [exact Hin |]. split; [exact Hoff |].
  destruct Hfit as [Hfit | [_ Hhead]]; [left | by right].
  rewrite placement_returns in Hoff. apply Ok_inj in Hoff. rewrite <- Hoff.
  by apply fits_overDirs.
Qed.

(** [opposite] on a list of one element that is not a direction. *)
Lemma opposite_single_unknown (d : value) :
  is_direction_value d = false ->
  opposite (VArr [d]) = throw_unknown_direction (VArr [d]).
Proof.
  intros Hd. rewrite opposite_switch by congruence.
  cbn [looked_at]. by rewrite (opposite_of_None _ Hd).
Qed.

End AdjustMore.

(** X12. [adjust] returns undefined exactly when the array it is given is
    empty, and then leaves the store as it is. *)
Theorem adjust_undefined_iff_empty (win : window) (σ : store) (l : loc)
    (a : list value) (tooltip origin : element) (auto : bool) :
  σ !! l = Some a ->
  ((adjust win σ (PArr l) tooltip origin auto).2 = Ok None <-> a = [])
  /\ (a = [] -> adjust win σ (PArr l) tooltip origin auto = (σ, Ok None)).
Proof.
  intros Hl. rewrite (adjust_array _ _ _ _ _ _ _ Hl). split; [split |].
  - destruct a as [| d [| d' a]]; [done | |].
    + destruct (opposite (VArr [d])); cbn [snd]; [| discriminate].
      intros H. by apply adjust_loop_None in H.
    + cbn [snd]. intros H. by apply adjust_loop_None in H.
  - by intros ->.
  - by intros ->.
Qed.

Lemma adjust_undefined_iff_empty_witness :
  adjust Examples.page {[ 1%positive := [] ]} (PArr 1%positive)
    Examples.tooltip Examples.anchor true
  = ({[ 1%positive := [] ]}, Ok None).
Proof.
  exact (proj2 (adjust_undefined_iff_empty Examples.page {[ 1%positive := [] ]} 1%positive []
                  Examples.tooltip Examples.anchor true eq_refl) eq_refl).
Defined.

(** X13. The direction [adjust] returns is an element of the array as the call
    leaves it, the offset is the placement for that direction, and either
    it violates no edge or it is the first element. *)
Theorem adjust_result_from_list (win : window) (σ σ' : store) (l : loc)
    (a : list value) (tooltip origin : element) (auto : bool) (r : result) :
  σ !! l = Some a ->
  adjust win σ (PArr l) tooltip origin auto = (σ', Ok (Some r)) ->
  exists a' : list value,
    σ' !! l = Some a'
    /\ place r ∈ a'
    /\ placement win (place r) tooltip origin = Ok (offset r)
    /\ (overDirs win (offset r) None = Ok [] \/ head a' = Some (place r)).
Proof.
  intros Hl. rewrite (adjust_array _ _ _ _ _ _ _ Hl).
  pose proof (adjust_loop_result win tooltip origin r) as Hloop.
  destruct a as [| d [| d' a]].
  - intros [_ H]%pair_inj. by apply adjust_loop_Some, proj1, elem_of_nil in H.
  - destruct (opposite (VArr [d])) as [o | e].
    + intros [<- H]%pair_inj. exists [d; o].
      split; [apply lookup_insert_eq | by apply Hloop].
    + intros [_ H]%pair_inj. by apply Throw_Ok in H.
  - intros [<- H]%pair_inj. exists (d :: d' :: a). split; [exact Hl | by apply Hloop].
Qed.

Lemma adjust_result_from_list_witness :
  let σ : store := {[ 1%positive := [VStr "top"] ]} in
  exists a' : list value,
    (<[1%positive := [VStr "top"; VStr "bottom"]]> σ) !! 1%positive = Some a'
    /\ VStr "bottom" ∈ a'.
Proof.
  intros σ.
  destruct (adjust_result_from_list Examples.page σ
              (<[1%positive := [VStr "top"; VStr "bottom"]]> σ) 1%positive [VStr "top"]
              Examples.tooltip Examples.high_anchor true
              (placed_value Examples.page Examples.tooltip Examples.high_anchor (VStr "bottom"))
              eq_refl) as (a' & Ha' & Hin & _).
  - vm_compute. reflexivity.
  - exists a'. exact (conj Ha' Hin).
Defined.

(** X14. [adjust] writes to no array but the one it is given, to which it
    appends at most one element, also when it throws. *)
Theorem adjust_frame (win : window) (σ : store) (place : place_arg)
    (tooltip origin : element) (auto : bool) :
  (forall (l' : loc) (a' : list value),
      σ !! l' = Some a' -> place <> PArr l' ->
      (adjust win σ place tooltip origin auto).1 !! l' = Some a')
  /\ (forall (l : loc) (a : list value),
        σ !! l = Some a -> place = PArr l ->
        exists suffix : list value,
          (adjust win σ place tooltip origin auto).1 !! l = Some (a ++ suffix)
          /\ (length suffix <= 1)%nat).
Proof.
  assert (forall (σ0 : store) (l : loc) (l' : loc) (a' : list value),
             σ0 !! l' = Some a' -> l <> l' ->
             (adjust win σ0 (PArr l) tooltip origin auto).1 !! l' = Some a') as Harr.
  { intros σ0 l l' a' Hl' Hne.
    destruct (σ0 !! l) as [a |] eqn:Hl.
    - rewrite (adjust_array _ _ _ _ _ _ _ Hl).
      destruct a as [| d [| d'' a]]; try exact Hl'.
      destruct (opposite (VArr [d])); cbn [fst]; [| exact Hl'].
      by rewrite lookup_insert_ne.
    - unfold adjust. by rewrite Hl. }
  split.
  - intros l' a' Hl' Hne. destruct place as [s | l].
    + destruct auto.
      * rewrite adjust_string_auto.
        assert (fresh (dom σ) <> l') as Hfresh.
        { intros <-. by rewrite fresh_loc_free in Hl'. }
        apply Harr; [by rewrite lookup_insert_ne | exact Hfresh].
      * unfold adjust. destruct (Nat.eqb (String.length s) 1); exact Hl'.
    + apply Harr; [exact Hl' | congruence].
  - intros l a Hl ->. rewrite (adjust_array _ _ _ _ _ _ _ Hl).
    destruct a as [| d [| d' a]].
    + exists []. split; [exact Hl | apply Nat.le_0_l].
    + destruct (opposite (VArr [d])) as [o | e]; cbn [fst].
      * exists [o]. split; [apply lookup_insert_eq | apply Nat.le_refl].
      * exists []. split; [exact Hl | apply Nat.le_0_l].
    + exists []. rewrite app_nil_r. split; [exact Hl | apply Nat.le_0_l].
Qed.

Lemma adjust_frame_witness :
  let σ : store := {[ 1%positive := [VStr "top"]; 2%positive := [VStr "left"] ]} in
  (adjust Examples.page σ (PArr 1%positive) Examples.tooltip Examples.high_anchor true).1
  !! 2%positive = Some [VStr "left"].
Proof.
  intros σ.
  apply (proj1 (adjust_frame Examples.page σ (PArr 1%positive)
                  Examples.tooltip Examples.high_anchor true)); [reflexivity | discriminate].
Defined.

(** X15. A list of one element that is not a direction makes [adjust] throw
    what [opposite] throws on the list, the array being left as it was:
    the error whose message quotes the list when the list can be printed,
    as it can when its element is a string, and the [TypeError] of the
    conversion when it cannot; so does a string without comma that is not
    a direction once trimmed. *)
Theorem adjust_unknown_single (win : window) (σ : store)
    (tooltip origin : element) (auto : bool) :
  (forall (l : loc) (d : value),
      σ !! l = Some [d] -> is_direction_value d = false ->
      (forall s : string,
          to_string (VArr [d]) = Ok s ->
          adjust win σ (PArr l) tooltip origin auto
          = (σ, Throw (Error (unknown_direction_message s))))
      /\ (to_string (VArr [d]) = Throw TypeError ->
          adjust win σ (PArr l) tooltip origin auto = (σ, Throw TypeError))
      /\ ((exists s : string, to_string (VArr [d]) = Ok s)
          \/ to_string (VArr [d]) = Throw TypeError))
  /\ (forall (l : loc) (s : string),
        σ !! l = Some [VStr s] -> is_direction s = false ->
        adjust win σ (PArr l) tooltip origin auto
        = (σ, Throw (Error (unknown_direction_message s))))
  /\ (forall s p : string,
        Str.split "," s = [p] -> is_direction (Str.trim p) = false ->
        (adjust win σ (PStr s) tooltip origin true).2
        = Throw (Error (unknown_direction_message (Str.trim p)))).
Proof.
  assert (forall (σ0 : store) (l : loc) (d : value) (s : string),
             σ0 !! l = Some [d] -> is_direction_value d = false ->
             to_string (VArr [d]) = Ok s ->
             adjust win σ0 (PArr l) tooltip origin auto
             = (σ0, Throw (Error (unknown_direction_message s)))) as Hprint.
  { intros σ0 l d s Hl Hd Hs.
    rewrite (adjust_array _ _ _ _ _ _ _ Hl), (opposite_single_unknown d Hd).
    unfold throw_unknown_direction. by rewrite Hs. }
  split; [| split].
  - intros l d Hl Hd. split; [intros s Hs; exact (Hprint σ l d s Hl Hd Hs) |].
    split; [| apply to_string_cases].
    intros Hs. rewrite (adjust_array _ _ _ _ _ _ _ Hl), (opposite_single_unknown d Hd).
    unfold throw_unknown_direction. by rewrite Hs.
  - intros l s Hl Hs. exact (Hprint σ l (VStr s) s Hl Hs eq_refl).
  - intros s p Hs Hp. rewrite adjust_string_auto, Hs. cbn [fmap list_fmap].
    rewrite (adjust_array _ _ _ _ _ [VStr (Str.trim p)] _ (lookup_insert_eq _ _ _)).
    rewrite (opposite_single_unknown (VStr (Str.trim p)) Hp). reflexivity.
Qed.

Lemma adjust_unknown_single_witness :
  adjust Examples.page {[ 1%positive := [VStr "center"] ]} (PArr 1%positive)
    Examples.tooltip Examples.anchor true
  = ({[ 1%positive := [VStr "center"] ]},
     Throw (Error (unknown_direction_message "center")))
  /\ adjust Examples.page {[ 1%positive := [VObj {[ "toString" := VNum (Num.of_Z 5) ]}] ]}
       (PArr 1%positive) Examples.tooltip Examples.anchor true
     = ({[ 1%positive := [VObj {[ "toString" := VNum (Num.of_Z 5) ]}] ]}, Throw TypeError)
  /\ (adjust Examples.page ∅ (PStr " middle ") Examples.tooltip Examples.anchor true).2
     = Throw (Error (unknown_direction_message "middle")).
Proof.
  destruct (adjust_unknown_single Examples.page {[ 1%positive := [VStr "center"] ]}
              Examples.tooltip Examples.anchor true) as (_ & H1 & _).
  destruct (adjust_unknown_single Examples.page
              {[ 1%positive := [VObj {[ "toString" := VNum (Num.of_Z 5) ]}] ]}
              Examples.tooltip Examples.anchor true) as (H2 & _ & _).
  destruct (adjust_unknown_single Examples.page ∅
              Examples.tooltip Examples.anchor true) as (_ & _ & H3).
  split; [| split].
  - exact (H1 1%positive "center" eq_refl eq_refl).
  - exact (proj1 (proj2 (H2 1%positive _ eq_refl eq_refl)) eq_refl).
  - exact (H3 " middle " " middle " eq_refl eq_refl).
Defined.

(** X16. With [auto] off a string is never split: [adjust] leaves the store
    as it is, throws on a string of one character, and otherwise runs over
    the characters, none of which is a direction, so that what it returns
    has a single character as place and only [width] and [height] as
    offset. *)
Theorem adjust_string_without_auto (win : window) (σ : store) (s : string)
    (tooltip origin : element) :
  (adjust win σ (PStr s) tooltip origin false).1 = σ
  /\ (String.length s = 1%nat ->
      (adjust win σ (PStr s) tooltip origin false).2
      = Throw (Error (unknown_direction_message s)))
  /\ (forall r : result,
        (adjust win σ (PStr s) tooltip origin false).2 = Ok (Some r) ->
        exists c : ascii,
          place r = VStr (String c EmptyString)
          /\ offset r
             = {[ "width" := VNum (rect_width (getBoundingClientRect tooltip));
                  "height" := VNum (rect_height (getBoundingClientRect tooltip)) ]}).
Proof.
  unfold adjust. split; [| split].
  - by destruct (Nat.eqb (String.length s) 1).
  - intros Hlen. rewrite Hlen. cbn [Nat.eqb snd].
    destruct s as [| c [| c' s]]; try discriminate Hlen.
    rewrite opposite_switch by congruence. cbn [looked_at].
    rewrite opposite_of_None; [reflexivity |]. apply single_char_no_direction.
  - intros r. destruct (Nat.eqb (String.length s) 1); cbn [snd].
    + destruct (opposite (VStr s)); discriminate.
    + intros H. apply adjust_loop_Some in H as (Hin & Hoff & _).
      apply list_elem_of_fmap in Hin as (x & Hx & Hin).
      apply chars_single in Hin as [c ->]. exists c. split; [exact Hx |].
      rewrite placement_returns in Hoff. apply Ok_inj in Hoff.
      rewrite <- Hoff, Hx. apply placement_no_direction.
      apply single_char_no_direction.
Qed.

Lemma adjust_string_without_auto_witness :
  (adjust Examples.page ∅ (PStr "t") Examples.tooltip Examples.anchor false).2
  = Throw (Error (unknown_direction_message "t"))
  /\ exists c : ascii,
       place (placed_value Examples.page Examples.tooltip Examples.anchor (VStr "t"))
       = VStr (String c EmptyString).
Proof.
  destruct (adjust_string_without_auto Examples.page ∅ "t" Examples.tooltip Examples.anchor)
    as (_ & H2 & _).
  destruct (adjust_string_without_auto Examples.page ∅ "top" Examples.tooltip Examples.anchor)
    as (_ & _ & H3).
  split; [exact (H2 eq_refl) |].
  destruct (H3 (placed_value Examples.page Examples.tooltip Examples.anchor (VStr "t")))
    as (c & Hc & _); [vm_compute; reflexivity |].
  exists c. exact Hc.
Defined.
